(** * PM Internship allocation engine: scoring and ranking

    A shallow embedding of the scoring core of [src/code.py]
    ([AIMatchingEngine] and [PMInternshipSystem.run_matching_algorithm])
    together with the properties its specification states about it.

    Modelling conventions.
    - The scorers are embedded twice.  In [AIMatchingEngine] and
      [PMInternshipSystem] a Python [float] is idealised as an exact
      rational ([Q]), results are compared with [Qeq] ([==]) and every
      decimal constant of the source ([0.40], [0.7], [100.0], ...) is the
      rational it denotes; the statements about order, bounds and the
      structure of a run are made there.  In [Binary64] a [float] is the
      IEEE-754 double it is, every operation rounds to the nearest double
      and the operations are applied in the order the source writes them;
      the equation for the aggregate and the stored score is stated there.
      The two agree up to rounding and can part at a tie ([binary64_tie]).
    - Python [str] values are sequences of code points below 256 ([string]);
      [lower], [split] and the [in] operator follow Python on that range.
    - [datetime.now()] reads a clock held in the system state: the k-th
      reading of a run is [now k].
    - The SQLite tables are the lists of records that [SELECT *] returns;
      an [int] is bound to a statement as a signed 64-bit integer.
    - [print] calls have no influence on the computed values and are left
      out. *)

From Stdlib Require Import QArith Qround Qminmax ZArith List String Ascii Bool.
From Stdlib Require Import Lia Lqa Sorted Permutation Floats.
Import ListNotations.

Open Scope string_scope.
Open Scope list_scope.
Open Scope Q_scope.

Set Warnings "-inexact-float".

(* ================================================================= *)
(** ** Python built-ins used by the engine *)

Module Py.

(** Code points that [str.lower] changes below 256: A-Z and the Latin-1
    capitals (0xC0-0xDE without the multiplication sign 0xD7). *)
Definition is_upper (c : ascii) : bool :=
  let n := nat_of_ascii c in
  ((65 <=? n) && (n <=? 90)
   || (192 <=? n) && (n <=? 214)
   || (216 <=? n) && (n <=? 222))%nat.

Definition lower_char (c : ascii) : ascii :=
  if is_upper c then ascii_of_nat (nat_of_ascii c + 32) else c.

(** [s.lower()] *)
Fixpoint lower (s : string) : string :=
  match s with
  | EmptyString => EmptyString
  | String c s' => String (lower_char c) (lower s')
  end.

(** [needle in hay] on strings: [needle] occurs as a contiguous block. *)
Fixpoint contains (needle hay : string) : bool :=
  prefix needle hay ||
  match hay with
  | EmptyString => false
  | String _ hay' => contains needle hay'
  end.

(** [x in l] on a list of strings. *)
Definition mem (x : string) (l : list string) : bool :=
  existsb (String.eqb x) l.

(** [c.isspace()] below 256: TAB..CR, FS..US, space, NEL, NBSP. *)
Definition is_space (c : ascii) : bool :=
  let n := nat_of_ascii c in
  ((9 <=? n) && (n <=? 13)
   || (28 <=? n) && (n <=? 32)
   || (n =? 133) || (n =? 160))%nat.

(** [s.split()] with no separator: maximal runs of non-blank characters.
    [cur] is the word being read. *)
Fixpoint split_from (cur : string) (s : string) : list string :=
  match s with
  | EmptyString => if String.eqb cur "" then [] else [cur]
  | String c s' =>
      if is_space c then
        if String.eqb cur "" then split_from "" s'
        else cur :: split_from "" s'
      else split_from (cur ++ String c "")%string s'
  end.

Definition split (s : string) : list string := split_from "" s.

(** [any(f(x) for x in l)] *)
Definition any {A} (f : A -> bool) (l : list A) : bool := existsb f l.

(** [d.get(k)] on a dict written as the list of its items. *)
Fixpoint get {V} (d : list (string * V)) (k : string) : option V :=
  match d with
  | [] => None
  | (k', v) :: d' => if String.eqb k k' then Some v else get d' k
  end.

(** [d[k]] for a key that the dict literal holds (0 stands for KeyError,
    which no lookup of the engine reaches). *)
Definition getitem (d : list (string * Q)) (k : string) : Q :=
  match get d k with Some v => v | None => 0 end.

(** Truth value of a string: non-empty. *)
Definition truthy (s : string) : bool := negb (String.eqb s "").

(** Round half to even on the exact value. *)
Definition round_half_even (x : Q) : Z :=
  let f := Qfloor x in
  match Qcompare (x - inject_Z f) (1 # 2) with
  | Lt => f
  | Gt => (f + 1)%Z
  | Eq => if Z.even f then f else (f + 1)%Z
  end.

(** [round(x, ndigits)] *)
Definition round (x : Q) (ndigits : nat) : Q :=
  let p := inject_Z (10 ^ Z.of_nat ndigits) in
  inject_Z (round_half_even (x * p)) / p.

(** [x < y] on numbers. *)
Definition Qlt_bool (x y : Q) : bool := negb (Qle_bool y x).

(** Insertion of [x] in front of a list that is already ranked: [x] passes
    the elements whose key is strictly larger and stops in front of the
    first one whose key is not. *)
Fixpoint insert_desc {A} (key : A -> Q) (x : A) (l : list A) : list A :=
  match l with
  | [] => [x]
  | y :: l' =>
      if Qlt_bool (key x) (key y) then y :: insert_desc key x l'
      else x :: y :: l'
  end.

(** [l.sort(key=key, reverse=True)]: the stable sort by decreasing key
    (elements with equal keys keep their order). *)
Fixpoint sort_reverse {A} (key : A -> Q) (l : list A) : list A :=
  match l with
  | [] => []
  | x :: l' => insert_desc key x (sort_reverse key l')
  end.

End Py.

(* ================================================================= *)
(** ** Data model *)

Module Candidate.
Record t := mk {
  id : Z;
  name : string;
  skills : list string;
  qualifications : string;
  location : string;
  sector : string;
  category : string;
  district : string;
  past_participation : bool;
  cgpa : Q;
  experience : string;
  email : string;
  phone : string
}.
End Candidate.

Module Internship.
Record t := mk {
  id : Z;
  company : string;
  title : string;
  required_skills : list string;
  location : string;
  sector : string;
  capacity : Z;
  preferred_qualification : string;
  stipend : Z;
  duration : string;
  type : string;
  description : string
}.
End Internship.

Module Match.
Record t := mk {
  candidate_id : Z;
  internship_id : Z;
  score : Q;
  factors : list (string * Q);
  status : string;
  timestamp : Z
}.
End Match.

(* ================================================================= *)
(** ** AIMatchingEngine *)

Module AIMatchingEngine.

Definition weights : list (string * Q) :=
  [ ("skills", 0.40); ("location", 0.20); ("sector", 0.15);
    ("qualification", 0.10); ("diversity", 0.10); ("academic", 0.05) ].

Definition aspirational_districts : list string :=
  [ "Rural Karnataka"; "Sabarkantha"; "Adilabad"; "Dantewada";
    "Naxalbari"; "Kalahandi"; "Nuapada"; "Koraput" ].

Definition skill_groups : list (string * list string) :=
  [ ("programming",
     ["python"; "java"; "javascript"; "c++"; "coding"; "programming"]);
    ("data",
     ["data analysis"; "analytics"; "sql"; "database"; "data science"]);
    ("design", ["ui/ux"; "figma"; "photoshop"; "design"; "prototyping"]);
    ("marketing",
     ["marketing"; "social media"; "content writing"; "seo"]);
    ("finance",
     ["finance"; "accounting"; "excel"; "financial modeling"]) ].

(** The loop over [skill_groups.values()], returning at the first group
    that holds both labels. *)
Fixpoint similar_in (groups : list (string * list string))
         (skill1_lower skill2_lower : string) : bool :=
  match groups with
  | [] => false
  | (_, group) :: rest =>
      if Py.mem skill1_lower group && Py.mem skill2_lower group then true
      else similar_in rest skill1_lower skill2_lower
  end.

Definition _are_similar_skills (skill1 skill2 : string) : bool :=
  similar_in skill_groups (Py.lower skill1) (Py.lower skill2).

(** The inner loop of [calculate_skills_match] for one required skill:
    [matches] is the running total; each of the three branches ends the
    loop ([break]). *)
Fixpoint scan_candidate_skills (req_skill : string)
         (candidate_skills : list string) (matches : Q) : Q :=
  match candidate_skills with
  | [] => matches
  | cand_skill :: rest =>
      if String.eqb (Py.lower req_skill) (Py.lower cand_skill) then
        matches + 1
      else if Py.contains (Py.lower req_skill) (Py.lower cand_skill)
              || Py.contains (Py.lower cand_skill) (Py.lower req_skill) then
        matches + 0.7
      else if _are_similar_skills req_skill cand_skill then
        matches + 0.5
      else scan_candidate_skills req_skill rest matches
  end.

Definition calculate_skills_match
           (candidate_skills required_skills : list string) : Q :=
  match candidate_skills, required_skills with
  | [], _ | _, [] => 0
  | _, _ =>
      let total_required := inject_Z (Z.of_nat (List.length required_skills)) in
      let matches :=
        fold_left
          (fun matches req_skill =>
             scan_candidate_skills req_skill candidate_skills matches)
          required_skills 0 in
      Qmin (matches / total_required) 1
  end.

Definition state_mapping : list (string * string) :=
  [ ("delhi", "delhi"); ("mumbai", "maharashtra");
    ("bangalore", "karnataka"); ("hyderabad", "telangana");
    ("ahmedabad", "gujarat"); ("pune", "maharashtra");
    ("kolkata", "west bengal"); ("chennai", "tamil nadu") ].

Definition calculate_location_score
           (candidate_location internship_location : string) : Q :=
  if String.eqb (Py.lower candidate_location) (Py.lower internship_location)
  then 1
  else
    let cand_state := Py.get state_mapping (Py.lower candidate_location) in
    let intern_state := Py.get state_mapping (Py.lower internship_location) in
    match cand_state, intern_state with
    | Some cs, Some ist =>
        if Py.truthy cs && Py.truthy ist && String.eqb cs ist then 0.7
        else 0.3
    | _, _ => 0.3
    end.

Definition calculate_diversity_score (candidate : Candidate.t) : Q :=
  let score := 0 in
  let score :=
    if Py.mem (Candidate.category candidate) ["SC"; "ST"] then score + 0.5
    else if String.eqb (Candidate.category candidate) "OBC" then score + 0.3
    else score in
  let score :=
    if Py.any (fun district =>
                 Py.contains (Py.lower district)
                             (Py.lower (Candidate.district candidate)))
              aspirational_districts
    then score + 0.3 else score in
  let score :=
    if Py.contains "rural" (Py.lower (Candidate.district candidate))
    then score + 0.2 else score in
  let score :=
    if negb (Candidate.past_participation candidate)
    then score + 0.2 else score in
  Qmin score 1.

(** The four sub-scores that [calculate_match_score] computes inline. *)
Definition sector_score (candidate : Candidate.t) (internship : Internship.t) : Q :=
  if String.eqb (Py.lower (Candidate.sector candidate))
                (Py.lower (Internship.sector internship))
  then 1 else 0.3.

Definition qual_score (candidate : Candidate.t) (internship : Internship.t) : Q :=
  let qual_words :=
    Py.split (Py.lower (Internship.preferred_qualification internship)) in
  let cand_qual := Py.lower (Candidate.qualifications candidate) in
  if Py.any (fun word => Py.contains word cand_qual) qual_words
  then 1 else 0.5.

Definition academic_score (candidate : Candidate.t) : Q :=
  Qmin (Candidate.cgpa candidate / 10) 1.

Definition calculate_match_score
           (candidate : Candidate.t) (internship : Internship.t)
  : Q * list (string * Q) :=
  let skills_score :=
    calculate_skills_match (Candidate.skills candidate)
                           (Internship.required_skills internship) in
  let location_score :=
    calculate_location_score (Candidate.location candidate)
                             (Internship.location internship) in
  let sector_score := sector_score candidate internship in
  let qual_score := qual_score candidate internship in
  let diversity_score := calculate_diversity_score candidate in
  let academic_score := academic_score candidate in
  let factors :=
    [ ("skills", skills_score * 100);
      ("location", location_score * 100);
      ("sector", sector_score * 100);
      ("qualification", qual_score * 100);
      ("diversity", diversity_score * 100);
      ("academic", academic_score * 100) ] in
  let total_score :=
    (skills_score * Py.getitem weights "skills"
     + location_score * Py.getitem weights "location"
     + sector_score * Py.getitem weights "sector"
     + qual_score * Py.getitem weights "qualification"
     + diversity_score * Py.getitem weights "diversity"
     + academic_score * Py.getitem weights "academic") * 100 in
  (Qmin total_score 100, factors).

End AIMatchingEngine.

(* ================================================================= *)
(** ** InternshipDatabase *)

Module InternshipDatabase.

(** The three tables, each as the list of rows a [SELECT *] yields. *)
Record t := mk {
  candidates : list Candidate.t;
  internships : list Internship.t;
  matches : list Match.t
}.

Definition get_all_candidates (db : t) : list Candidate.t := candidates db.

Definition get_all_internships (db : t) : list Internship.t := internships db.

(** [DELETE FROM matches], then one [INSERT] per match, in order. *)
Definition save_matches (db : t) (ms : list Match.t) : t :=
  let cleared := [] in
  mk (candidates db) (internships db)
     (fold_left (fun table m => table ++ [m]) ms cleared).

End InternshipDatabase.

(* ================================================================= *)
(** ** PMInternshipSystem *)

Module PMInternshipSystem.

(** [db] and [matches] are the attributes of the object; [now] and [ticks]
    are the clock that [datetime.now()] reads: the next reading is
    [now ticks]. *)
Record t := mk {
  db : InternshipDatabase.t;
  matches : list Match.t;
  now : nat -> Z;
  ticks : nat
}.

(** Status tier, decided on the score that the engine returned. *)
Definition status_of (score : Q) : string :=
  if Qle_bool 70 score then "excellent"
  else if Qle_bool 50 score then "good"
  else "fair".

(** The [Match(...)] built for one pair at clock reading [ts]. *)
Definition make_match (candidate : Candidate.t) (internship : Internship.t)
           (ts : Z) : Match.t :=
  let '(score, factors) :=
    AIMatchingEngine.calculate_match_score candidate internship in
  let status := status_of score in
  Match.mk (Candidate.id candidate) (Internship.id internship)
           (Py.round score 1) factors status ts.

(** Body of the inner loop: the state is the list built so far and the
    number of clock readings taken. *)
Definition score_internship (now : nat -> Z) (candidate : Candidate.t)
           (st : list Match.t * nat) (internship : Internship.t)
  : list Match.t * nat :=
  let '(candidate_matches, k) := st in
  (candidate_matches ++ [make_match candidate internship (now k)], S k).

(** Body of the outer loop: score every internship, rank, keep three. *)
Definition match_candidate (now : nat -> Z) (internships : list Internship.t)
           (st : list Match.t * nat) (candidate : Candidate.t)
  : list Match.t * nat :=
  let '(all_matches, k) := st in
  let '(candidate_matches, k') :=
    fold_left (score_internship now candidate) internships ([], k) in
  let candidate_matches := Py.sort_reverse Match.score candidate_matches in
  (all_matches ++ firstn 3 candidate_matches, k').

Definition run_matching_algorithm (self : t) : list Match.t * t :=
  let candidates := InternshipDatabase.get_all_candidates (db self) in
  let internships := InternshipDatabase.get_all_internships (db self) in
  let '(all_matches, k) :=
    fold_left (match_candidate (now self) internships) candidates
              ([], ticks self) in
  let all_matches := Py.sort_reverse Match.score all_matches in
  let db' := InternshipDatabase.save_matches (db self) all_matches in
  (all_matches, mk db' all_matches (now self) k).

End PMInternshipSystem.

(* ================================================================= *)
(** ** The sample records of [load_sample_data] *)

Module Sample.

Definition candidates : list Candidate.t :=
  [ Candidate.mk 1 "Priya Sharma" ["Python"; "Data Analysis"; "SQL"]
      "B.Tech CSE" "Delhi" "Technology" "General" "New Delhi" false 8.5
      "Fresher" "priya@email.com" "+91-9999999999";
    Candidate.mk 2 "Rahul Kumar"
      ["Marketing"; "Content Writing"; "Social Media"] "MBA Marketing"
      "Mumbai" "Marketing" "OBC" "Thane" false 7.8 "1 year"
      "rahul@email.com" "+91-8888888888";
    Candidate.mk 3 "Anjali Patel" ["Finance"; "Excel"; "Financial Modeling"]
      "B.Com" "Ahmedabad" "Finance" "SC" "Sabarkantha" true 8.2 "Fresher"
      "anjali@email.com" "+91-7777777777";
    Candidate.mk 4 "Amit Singh" ["Java"; "Spring Boot"; "Microservices"]
      "MCA" "Bangalore" "Technology" "General" "Rural Karnataka" false 9.1
      "2 years" "amit@email.com" "+91-6666666666";
    Candidate.mk 5 "Sneha Reddy" ["UI/UX"; "Figma"; "User Research"]
      "B.Des" "Hyderabad" "Design" "ST" "Adilabad" false 8.7 "6 months"
      "sneha@email.com" "+91-5555555555" ].

Definition internships : list Internship.t :=
  [ Internship.mk 1 "TechCorp India" "Data Science Intern"
      ["Python"; "Data Analysis"; "Machine Learning"] "Delhi" "Technology"
      10 "B.Tech/MCA" 25000 "6 months" "Full-time"
      "Work on ML projects and data analysis";
    Internship.mk 2 "MarketPro Solutions" "Digital Marketing Intern"
      ["Marketing"; "Content Writing"; "Analytics"] "Mumbai" "Marketing"
      5 "MBA/BBA" 20000 "3 months" "Part-time"
      "Digital marketing campaigns and content creation";
    Internship.mk 3 "FinanceHub" "Financial Analyst Intern"
      ["Finance"; "Excel"; "Financial Modeling"] "Ahmedabad" "Finance"
      8 "B.Com/MBA Finance" 22000 "4 months" "Full-time"
      "Financial analysis and modeling work";
    Internship.mk 4 "InnovateDesign" "UX Design Intern"
      ["UI/UX"; "Figma"; "Prototyping"] "Hyderabad" "Design"
      6 "B.Des/M.Des" 18000 "5 months" "Full-time"
      "User experience design and prototyping";
    Internship.mk 5 "DevSolutions" "Backend Developer Intern"
      ["Java"; "Spring Boot"; "Database"] "Bangalore" "Technology"
      12 "B.Tech/MCA" 28000 "6 months" "Full-time"
      "Backend development with Java and Spring Boot" ].

Definition system : PMInternshipSystem.t :=
  PMInternshipSystem.mk
    (InternshipDatabase.mk candidates internships [])
    [] (fun k => Z.of_nat k) 0.

End Sample.

(* ================================================================= *)
(** ** The specification's vocabulary *)

Module Spec.

Import AIMatchingEngine.

(** Case-insensitive equality and case-insensitive substring. *)
Definition ci_equal (a b : string) : bool :=
  String.eqb (Py.lower a) (Py.lower b).

Definition ci_substring (a b : string) : bool :=
  Py.contains (Py.lower a) (Py.lower b).

(** Every character of the text is blank (the empty text included). *)
Fixpoint blank (s : string) : bool :=
  match s with
  | EmptyString => true
  | String c s' => Py.is_space c && blank s'
  end.

(** *** Skill relatedness (SkillSimilarity) *)

Inductive relatedness := EXACT | PARTIAL | GROUPED | NONE.

Definition same_group (a b : string) : bool :=
  existsb (fun g => Py.mem (Py.lower a) (snd g) && Py.mem (Py.lower b) (snd g))
          skill_groups.

Definition classify (req cand : string) : relatedness :=
  if ci_equal req cand then EXACT
  else if ci_substring req cand || ci_substring cand req then PARTIAL
  else if same_group req cand then GROUPED
  else NONE.

Definition related (req cand : string) : bool :=
  match classify req cand with NONE => false | _ => true end.

Definition credit (r : relatedness) : Q :=
  match r with EXACT => 1 | PARTIAL => 0.7 | GROUPED => 0.5 | NONE => 0 end.

(** What one required skill contributes: the credit of the first candidate
    skill related to it at any level, nothing when there is none. *)
Definition contribution (cands : list string) (req : string) : Q :=
  match find (related req) cands with
  | Some cand => credit (classify req cand)
  | None => 0
  end.

Fixpoint Qsum (l : list Q) : Q :=
  match l with
  | [] => 0
  | x :: l' => x + Qsum l'
  end.

(** *** Diversity bonuses *)

Definition category_bonus (c : Candidate.t) : Q :=
  if String.eqb (Candidate.category c) "SC"
     || String.eqb (Candidate.category c) "ST" then 0.5
  else if String.eqb (Candidate.category c) "OBC" then 0.3
  else 0.

Definition in_aspirational_district (c : Candidate.t) : bool :=
  existsb (fun d => ci_substring d (Candidate.district c))
          aspirational_districts.

Definition district_bonus (c : Candidate.t) : Q :=
  if in_aspirational_district c then 0.3 else 0.

Definition rural_bonus (c : Candidate.t) : Q :=
  if ci_substring "rural" (Candidate.district c) then 0.2 else 0.

Definition first_time_bonus (c : Candidate.t) : Q :=
  if Candidate.past_participation c then 0 else 0.2.

(** *** Aggregate *)

Definition weighted_sum (skills location sector qualification diversity
                         academic : Q) : Q :=
  skills * 0.40 + location * 0.20 + sector * 0.15
  + qualification * 0.10 + diversity * 0.10 + academic * 0.05.

Definition in_unit (x : Q) : Prop := 0 <= x /\ x <= 1.

(** *** Ranking *)

(** [b] may follow [a] in a list ranked by decreasing key. *)
Definition desc {A} (key : A -> Q) (a b : A) : Prop := key b <= key a.

(** The elements whose key is [q], in their order in [l]. *)
Definition keyed {A} (key : A -> Q) (q : Q) (l : list A) : list A :=
  filter (fun a => Qeq_bool (key a) q) l.

(** Non-increasing by stored score. *)
Definition ranked (l : list Match.t) : Prop :=
  StronglySorted (desc Match.score) l.

(** The matches that carry score [q], in their order in [l]. *)
Definition tied (q : Q) (l : list Match.t) : list Match.t :=
  keyed Match.score q l.

(** [l'] is [l] ranked by decreasing score with ties left in the order
    they have in [l]. *)
Definition stable_ranking (l l' : list Match.t) : Prop :=
  ranked l' /\ forall q, tied q l' = tied q l.

(** A match with its timestamp blanked. *)
Definition untimed (m : Match.t) : Match.t :=
  Match.mk (Match.candidate_id m) (Match.internship_id m) (Match.score m)
           (Match.factors m) (Match.status m) 0.

(** *** Malformed records *)

Definition malformed_candidate (c : Candidate.t) : bool :=
  negb (Qle_bool 0 (Candidate.cgpa c) && Qle_bool (Candidate.cgpa c) 10).

Definition malformed_internship (i : Internship.t) : bool :=
  (Internship.capacity i <? 0)%Z || (Internship.stipend i <? 0)%Z.

Definition malformed_snapshot (cs : list Candidate.t)
           (ins : list Internship.t) : bool :=
  existsb malformed_candidate cs || existsb malformed_internship ins.

End Spec.

(* ================================================================= *)
(** ** The lists that the loops of a run build *)

Module Trace.

Import PMInternshipSystem.

(** What the inner loop appends for one candidate when the clock has been
    read [k] times: one match per internship, in iteration order. *)
Fixpoint scored (now : nat -> Z) (c : Candidate.t)
         (ins : list Internship.t) (k : nat) : list Match.t :=
  match ins with
  | [] => []
  | i :: ins' => make_match c i (now k) :: scored now c ins' (S k)
  end.

(** The score lists of all candidates, in iteration order. *)
Fixpoint per_candidate (now : nat -> Z) (ins : list Internship.t)
         (cs : list Candidate.t) (k : nat) : list (list Match.t) :=
  match cs with
  | [] => []
  | c :: cs' =>
      scored now c ins k :: per_candidate now ins cs' (k + List.length ins)
  end.

(** Rank one candidate's list and keep its first three entries. *)
Definition top3 (ms : list Match.t) : list Match.t :=
  firstn 3 (Py.sort_reverse Match.score ms).

(** The ranked list of a run with every timestamp blanked: it is a
    function of the two tables alone. *)
Definition untimed_ranking (cs : list Candidate.t)
           (ins : list Internship.t) : list Match.t :=
  Py.sort_reverse Match.score
    (List.concat (map (fun c => top3 (map (fun i => make_match c i 0) ins)) cs)).

End Trace.

(* ================================================================= *)
(** ** Particular records *)

Module Cases.

(** A pair whose aggregate is 69.975: skills 1.0, location 0.3, sector
    1.0, qualification 0.5, diversity 0, academic 0.795. *)
Definition borderline_candidate : Candidate.t :=
  Candidate.mk 1 "Ravi" ["Python"] "B.Tech" "Delhi" "Technology" "General"
               "New Delhi" true 7.95 "Fresher" "" "".

Definition borderline_internship : Internship.t :=
  Internship.mk 1 "TechCorp India" "Developer Intern" ["Python"] "Mumbai"
                "Technology" 10 "MBA" 25000 "6 months" "Full-time" "".

Definition borderline_system : PMInternshipSystem.t :=
  PMInternshipSystem.mk
    (InternshipDatabase.mk [borderline_candidate] [borderline_internship] [])
    [] (fun _ => 0%Z) 0.

(** A candidate whose academic score is below the 0-10 scale. *)
Definition negative_cgpa : Candidate.t :=
  Candidate.mk 2 "Meera" ["Excel"] "B.Com" "Pune" "Finance" "General"
               "Pune" true (-1) "Fresher" "" "".

(** A snapshot with one candidate above the 0-10 scale and one internship
    with a negative capacity and stipend. *)
Definition out_of_scale : Candidate.t :=
  Candidate.mk 3 "Kiran" ["Java"] "MCA" "Chennai" "Technology" "General"
               "Chennai" false 11 "Fresher" "" "".

Definition negative_capacity : Internship.t :=
  Internship.mk 2 "DevSolutions" "Backend Intern" ["Java"] "Chennai"
                "Technology" (-4) "MCA" (-100) "6 months" "Full-time" "".

Definition malformed_system : PMInternshipSystem.t :=
  PMInternshipSystem.mk
    (InternshipDatabase.mk [out_of_scale] [negative_capacity] [])
    [] (fun _ => 0%Z) 0.

(** An SC candidate of a listed district who was never placed. *)
Definition listed_sc_candidate : Candidate.t :=
  Candidate.mk 9 "Asha" ["Excel"] "B.Com" "Ahmedabad" "Finance" "SC"
               "Sabarkantha West" false 7 "Fresher" "" "".

(** An internship whose preferred qualification is three spaces. *)
Definition blank_qualification : Internship.t :=
  Internship.mk 7 "Acme" "Intern" ["Python"] "Delhi" "Technology" 3
                "   " 1000 "2 months" "Full-time" "".

End Cases.

(* ================================================================= *)
(** ** InternshipDatabase: inserting records *)

Module Tables.

Import InternshipDatabase.

(** [sqlite3] binds a Python [int] to a statement as a signed 64-bit
    integer.  An [int] outside that range makes [execute] raise
    [OverflowError] while it binds the parameters, before the statement
    runs. *)
Inductive exn := OverflowError.

Definition int64 (n : Z) : bool := ((- 2 ^ 63 <=? n) && (n <? 2 ^ 63))%Z.

(** [INSERT OR REPLACE] on a table with an [INTEGER PRIMARY KEY]: the rows
    that carry the key of the new row are deleted and the new row takes its
    place in rowid order, the order in which [SELECT *] reads the table. *)
Fixpoint insert_by_rowid {R} (key : R -> Z) (row : R) (table : list R)
  : list R :=
  match table with
  | [] => [row]
  | r :: table' =>
      if (key row <? key r)%Z then row :: r :: table'
      else r :: insert_by_rowid key row table'
  end.

Definition insert_or_replace {R} (key : R -> Z) (row : R) (table : list R)
  : list R :=
  insert_by_rowid key row
    (filter (fun r => negb (key r =? key row)%Z) table).

(** A call yields the exception it raises, if any, and the database it
    leaves.  Of the parameters of [add_candidate] only the id is an [int];
    [add_internship] also binds the capacity and the stipend. *)
Definition add_candidate (db : t) (candidate : Candidate.t)
  : option exn * t :=
  if int64 (Candidate.id candidate) then
    (None,
     mk (insert_or_replace Candidate.id candidate (candidates db))
        (internships db) (matches db))
  else (Some OverflowError, db).

Definition add_internship (db : t) (internship : Internship.t)
  : option exn * t :=
  if int64 (Internship.id internship)
     && int64 (Internship.capacity internship)
     && int64 (Internship.stipend internship) then
    (None,
     mk (candidates db)
        (insert_or_replace Internship.id internship (internships db))
        (matches db))
  else (Some OverflowError, db).

(** A [for] loop of calls ends at the first exception. *)
Fixpoint for_each {R} (call : t -> R -> option exn * t) (rows : list R)
         (db : t) : option exn * t :=
  match rows with
  | [] => (None, db)
  | row :: rows' =>
      match call db row with
      | (None, db') => for_each call rows' db'
      | raised => raised
      end
  end.

(** [load_sample_data]: nothing happens when the candidates table holds a
    row; otherwise the sample candidates, then the sample internships, are
    added one by one. *)
Definition load_sample_data_call (db : t) : option exn * t :=
  if (0 <? List.length (candidates db))%nat then (None, db)
  else
    match for_each add_candidate Sample.candidates db with
    | (None, db') => for_each add_internship Sample.internships db'
    | raised => raised
    end.

(** The database that [load_sample_data] leaves. *)
Definition load_sample_data (db : t) : t := snd (load_sample_data_call db).

(** The rows of a table are in rowid order, one row per id. *)
Definition rowid_order {R} (key : R -> Z) (table : list R) : Prop :=
  StronglySorted (fun a b => (key a < key b)%Z) table.

End Tables.

(* ================================================================= *)
(** ** PMInternshipSystem: display, analytics and export *)

Module Reports.

Import PMInternshipSystem.

Inductive exn := KeyError | ZeroDivisionError.

(** [{r.id: r for r in rows}[k]]: the last row that carries the id. *)
Fixpoint lookup {R} (key : R -> Z) (rows : list R) (k : Z) : option R :=
  match rows with
  | [] => None
  | r :: rows' =>
      match lookup key rows' k with
      | Some r' => Some r'
      | None => if (key r =? k)%Z then Some r else None
      end
  end.

(** [l[:limit]] *)
Definition slice_to {A} (l : list A) (limit : Z) : list A :=
  if (0 <=? limit)%Z then firstn (Z.to_nat limit) l
  else firstn (List.length l - Z.to_nat (- limit)) l.

(** The emoji of each status tier, as code points. *)
Definition status_emoji : list (string * list N) :=
  [ ("excellent", [127775%N]); ("good", [128077%N]);
    ("fair", [9888%N; 65039%N]) ].

(** The values that [display_top_matches] prints for one match. *)
Record shown := mk_shown {
  rank : nat;
  emoji : list N;
  shown_score : Q;
  candidate_name : string;
  candidate_qualifications : string;
  internship_title : string;
  internship_company : string;
  candidate_location : string;
  internship_location : string;
  internship_stipend : Z;
  internship_duration : string;
  breakdown : list (string * Q)
}.

(** One turn of the loop of [display_top_matches]: the three dictionary
    lookups come before the first [print] of the turn. *)
Definition show_match (candidates : list Candidate.t)
           (internships : list Internship.t) (i : nat) (m : Match.t)
  : option shown :=
  match lookup Candidate.id candidates (Match.candidate_id m) with
  | None => None
  | Some candidate =>
      match lookup Internship.id internships (Match.internship_id m) with
      | None => None
      | Some internship =>
          match Py.get status_emoji (Match.status m) with
          | None => None
          | Some e =>
              Some (mk_shown i e (Match.score m)
                             (Candidate.name candidate)
                             (Candidate.qualifications candidate)
                             (Internship.title internship)
                             (Internship.company internship)
                             (Candidate.location candidate)
                             (Internship.location internship)
                             (Internship.stipend internship)
                             (Internship.duration internship)
                             (Match.factors m))
          end
      end
  end.

(** The loop over [enumerate(matches, i)]: what was printed, and the
    exception that ended the loop, if any. *)
Fixpoint show_from (candidates : list Candidate.t)
         (internships : list Internship.t) (i : nat) (ms : list Match.t)
  : list shown * option exn :=
  match ms with
  | [] => ([], None)
  | m :: ms' =>
      match show_match candidates internships i m with
      | None => ([], Some KeyError)
      | Some s =>
          let '(printed, raised) :=
            show_from candidates internships (S i) ms' in
          (s :: printed, raised)
      end
  end.

Inductive display :=
| NoMatches
| Shown (printed : list shown) (raised : option exn).

Definition display_top_matches (self : t) (limit : Z) : display :=
  match matches self with
  | [] => NoMatches
  | _ =>
      let candidates := InternshipDatabase.get_all_candidates (db self) in
      let internships := InternshipDatabase.get_all_internships (db self) in
      let '(printed, raised) :=
        show_from candidates internships 1 (slice_to (matches self) limit) in
      Shown printed raised
  end.

(** A row of [export_data]. *)
Record row := mk_row {
  Candidate_Name : string;
  Candidate_Qualifications : string;
  Candidate_Location : string;
  Candidate_Category : string;
  Company : string;
  Internship_Title : string;
  Internship_Location : string;
  Stipend : Z;
  Duration : string;
  Match_Score : Q;
  Status : string;
  Skills_Score : Q;
  Location_Score : Q;
  Sector_Score : Q;
  Diversity_Score : Q;
  Academic_Score : Q
}.

Definition export_row (candidates : list Candidate.t)
           (internships : list Internship.t) (m : Match.t) : option row :=
  match lookup Candidate.id candidates (Match.candidate_id m) with
  | None => None
  | Some candidate =>
      match lookup Internship.id internships (Match.internship_id m) with
      | None => None
      | Some internship =>
          match Py.get (Match.factors m) "skills",
                Py.get (Match.factors m) "location",
                Py.get (Match.factors m) "sector",
                Py.get (Match.factors m) "diversity",
                Py.get (Match.factors m) "academic" with
          | Some sk, Some lo, Some se, Some di, Some ac =>
              Some (mk_row (Candidate.name candidate)
                           (Candidate.qualifications candidate)
                           (Candidate.location candidate)
                           (Candidate.category candidate)
                           (Internship.company internship)
                           (Internship.title internship)
                           (Internship.location internship)
                           (Internship.stipend internship)
                           (Internship.duration internship)
                           (Match.score m) (Match.status m)
                           sk lo se di ac)
          | _, _, _, _, _ => None
          end
      end
  end.

(** The loop that fills [export_data]; [None] is a [KeyError], raised before
    anything is written. *)
Fixpoint export_rows (candidates : list Candidate.t)
         (internships : list Internship.t) (ms : list Match.t)
  : option (list row) :=
  match ms with
  | [] => Some []
  | m :: ms' =>
      match export_row candidates internships m with
      | None => None
      | Some r =>
          match export_rows candidates internships ms' with
          | None => None
          | Some rs => Some (r :: rs)
          end
      end
  end.

Inductive export :=
| NothingToExport
| Exported (rows : list row)
| ExportFailed (e : exn).

(** [export_results_to_csv]: the rows handed to the data frame. *)
Definition export_results_to_csv (self : t) : export :=
  match matches self with
  | [] => NothingToExport
  | _ =>
      let candidates := InternshipDatabase.get_all_candidates (db self) in
      let internships := InternshipDatabase.get_all_internships (db self) in
      match export_rows candidates internships (matches self) with
      | Some rows => Exported rows
      | None => ExportFailed KeyError
      end
  end.










End Reports.

(* ================================================================= *)
(** ** Further vocabulary *)

Module Vocabulary.

(** A candidate and an internship with every free-text field that the
    scorers read in lower case. *)
Definition lower_candidate (c : Candidate.t) : Candidate.t :=
  Candidate.mk (Candidate.id c) (Candidate.name c)
               (map Py.lower (Candidate.skills c))
               (Py.lower (Candidate.qualifications c))
               (Py.lower (Candidate.location c))
               (Py.lower (Candidate.sector c))
               (Candidate.category c)
               (Py.lower (Candidate.district c))
               (Candidate.past_participation c) (Candidate.cgpa c)
               (Candidate.experience c) (Candidate.email c)
               (Candidate.phone c).

Definition lower_internship (i : Internship.t) : Internship.t :=
  Internship.mk (Internship.id i) (Internship.company i)
                (Internship.title i)
                (map Py.lower (Internship.required_skills i))
                (Py.lower (Internship.location i))
                (Py.lower (Internship.sector i))
                (Internship.capacity i)
                (Py.lower (Internship.preferred_qualification i))
                (Internship.stipend i) (Internship.duration i)
                (Internship.type i) (Internship.description i).

(** The first candidate skill related to [req] is an exact match. *)
Definition first_related_exact (cands : list string) (req : string) : Prop :=
  exists cand,
    find (Spec.related req) cands = Some cand
    /\ Spec.classify req cand = Spec.EXACT.


(** A match that the reports can resolve: its two ids occur in the
    tables, its status is one of the three tiers, and its breakdown has the
    six factor names. *)
Definition resolvable (cs : list Candidate.t) (ins : list Internship.t)
           (m : Match.t) : Prop :=
  (exists c, In c cs /\ Match.candidate_id m = Candidate.id c)
  /\ (exists i, In i ins /\ Match.internship_id m = Internship.id i)
  /\ In (Match.status m) ["excellent"; "good"; "fair"]
  /\ map fst (Match.factors m)
     = ["skills"; "location"; "sector"; "qualification";
        "diversity"; "academic"].

End Vocabulary.

(* ================================================================= *)
(** ** The scorer in binary64 arithmetic *)

Module Binary64.

Local Open Scope float_scope.

(** [min(a, b)] on two numbers: [a], unless [b < a]. *)
Definition min (a b : float) : float := if b <? a then b else a.

(** [float(n)] for the length of a list (a length is at most
    [sys.maxsize], below 2^63). *)
Definition of_len (n : nat) : float := of_uint63 (Uint63.of_Z (Z.of_nat n)).

Definition weights : list (string * float) :=
  [ ("skills", 0.40); ("location", 0.20); ("sector", 0.15);
    ("qualification", 0.10); ("diversity", 0.10); ("academic", 0.05) ].

(** [d[k]] for a key that the dict literal holds (NaN stands for KeyError,
    which no lookup of the engine reaches). *)
Definition getitem (d : list (string * float)) (k : string) : float :=
  match Py.get d k with Some v => v | None => nan end.

(** The inner loop of [calculate_skills_match] for one required skill.
    [matches] starts as the [int] 0 and receives [1], [0.7] or [0.5]; an
    [int] below 2^53 and the double of the same value add and divide
    alike, so the running total is held as a double. *)
Fixpoint scan_candidate_skills (req_skill : string)
         (candidate_skills : list string) (matches : float) : float :=
  match candidate_skills with
  | [] => matches
  | cand_skill :: rest =>
      if String.eqb (Py.lower req_skill) (Py.lower cand_skill) then
        matches + 1
      else if Py.contains (Py.lower req_skill) (Py.lower cand_skill)
              || Py.contains (Py.lower cand_skill) (Py.lower req_skill) then
        matches + 0.7
      else if AIMatchingEngine._are_similar_skills req_skill cand_skill then
        matches + 0.5
      else scan_candidate_skills req_skill rest matches
  end.

Definition calculate_skills_match
           (candidate_skills required_skills : list string) : float :=
  match candidate_skills, required_skills with
  | [], _ | _, [] => 0
  | _, _ =>
      let total_required := of_len (List.length required_skills) in
      let matches :=
        fold_left
          (fun matches req_skill =>
             scan_candidate_skills req_skill candidate_skills matches)
          required_skills 0 in
      min (matches / total_required) 1
  end.

Definition calculate_location_score
           (candidate_location internship_location : string) : float :=
  if String.eqb (Py.lower candidate_location) (Py.lower internship_location)
  then 1
  else
    let cand_state :=
      Py.get AIMatchingEngine.state_mapping (Py.lower candidate_location) in
    let intern_state :=
      Py.get AIMatchingEngine.state_mapping (Py.lower internship_location) in
    match cand_state, intern_state with
    | Some cs, Some ist =>
        if Py.truthy cs && Py.truthy ist && String.eqb cs ist then 0.7
        else 0.3
    | _, _ => 0.3
    end.

Definition calculate_diversity_score (candidate : Candidate.t) : float :=
  let score := 0 in
  let score :=
    if Py.mem (Candidate.category candidate) ["SC"; "ST"]%string
    then score + 0.5
    else if String.eqb (Candidate.category candidate) "OBC" then score + 0.3
    else score in
  let score :=
    if Py.any (fun district =>
                 Py.contains (Py.lower district)
                             (Py.lower (Candidate.district candidate)))
              AIMatchingEngine.aspirational_districts
    then score + 0.3 else score in
  let score :=
    if Py.contains "rural" (Py.lower (Candidate.district candidate))
    then score + 0.2 else score in
  let score :=
    if negb (Candidate.past_participation candidate)
    then score + 0.2 else score in
  min score 1.

Definition sector_score (candidate : Candidate.t) (internship : Internship.t)
  : float :=
  if String.eqb (Py.lower (Candidate.sector candidate))
                (Py.lower (Internship.sector internship))
  then 1 else 0.3.

Definition qual_score (candidate : Candidate.t) (internship : Internship.t)
  : float :=
  let qual_words :=
    Py.split (Py.lower (Internship.preferred_qualification internship)) in
  let cand_qual := Py.lower (Candidate.qualifications candidate) in
  if Py.any (fun word => Py.contains word cand_qual) qual_words
  then 1 else 0.5.

(** [min(candidate.cgpa / 10.0, 1.0)].  [cgpa] is [candidate.cgpa] as the
    double that the Python record holds; the rational field
    [Candidate.cgpa] is not read in this module. *)
Definition academic_score (cgpa : float) : float := min (cgpa / 10) 1.

(** [calculate_match_score]: the six products are added from left to
    right, each product and each sum rounded to the nearest double. *)
Definition calculate_match_score
           (candidate : Candidate.t) (cgpa : float) (internship : Internship.t)
  : float * list (string * float) :=
  let skills_score :=
    calculate_skills_match (Candidate.skills candidate)
                           (Internship.required_skills internship) in
  let location_score :=
    calculate_location_score (Candidate.location candidate)
                             (Internship.location internship) in
  let sector_score := sector_score candidate internship in
  let qual_score := qual_score candidate internship in
  let diversity_score := calculate_diversity_score candidate in
  let academic_score := academic_score cgpa in
  let factors :=
    [ ("skills", skills_score * 100);
      ("location", location_score * 100);
      ("sector", sector_score * 100);
      ("qualification", qual_score * 100);
      ("diversity", diversity_score * 100);
      ("academic", academic_score * 100) ]%string in
  let total_score :=
    (skills_score * getitem weights "skills"
     + location_score * getitem weights "location"
     + sector_score * getitem weights "sector"
     + qual_score * getitem weights "qualification"
     + diversity_score * getitem weights "diversity"
     + academic_score * getitem weights "academic") * 100 in
  (min total_score 100, factors).

(** [round(x, 1)].  CPython rounds the exact value of [x] half to even at
    one decimal and returns the double nearest to that decimal; zeros,
    infinities and NaN are returned as they are.  From 2^49 on,
    neighbouring doubles are at least 0.125 apart and the result is [x].
    Below 2^49 the decimal is [k/10] for an integer [k] below 2^53, which
    a double holds exactly, and the quotient [k / 10.0] is the double
    nearest to it. *)
Definition round1 (x : float) : float :=
  match Prim2SF x with
  | S754_finite s m e =>
      if abs x <? 0x1p+49 then
        let k :=
          Py.round_half_even (inject_Z (Zpos m) * 2 ^ e * 10)%Q in
        let r := of_uint63 (Uint63.of_Z k) / 10 in
        if s then - r else r
      else x
  | _ => x
  end.

(** The [score] field of the [Match] that [run_matching_algorithm] builds
    for a pair: [round(score, 1)]. *)
Definition stored_score (candidate : Candidate.t) (cgpa : float)
           (internship : Internship.t) : float :=
  round1 (fst (calculate_match_score candidate cgpa internship)).

(** A sub-score that lies in [0,1]. *)
Definition in_unit (s : float) : Prop :=
  (0 <=? s) = true /\ (s <=? 1) = true.


(** A pair that agrees on everything: skills 1.0, location 1.0, sector
    1.0, qualification 1.0 and, for a first-time candidate of the General
    category, diversity 0.2. *)
Definition first_timer : Candidate.t :=
  Candidate.mk 6 "Neha" ["Python"] "B.Tech" "Delhi" "Technology" "General"
               "New Delhi" false 6.5 "Fresher" "" "".

Definition opening : Internship.t :=
  Internship.mk 6 "TechCorp India" "Developer Intern" ["Python"] "Delhi"
                "Technology" 10 "B.Tech" 25000 "6 months" "Full-time" "".

(** A candidate who shares no skill with [opening], was placed before and
    is of the General category (skills 0, diversity 0); everything else
    agrees. *)
Definition returning : Candidate.t :=
  Candidate.mk 7 "Arjun" ["Excel"] "B.Tech" "Delhi" "Technology" "General"
               "New Delhi" true 1.5 "Fresher" "" "".

End Binary64.

(* ================================================================= *)
(** ** Strings *)

Import AIMatchingEngine.

Lemma prefix_lower (a b : string) :
  prefix a b = true -> prefix (Py.lower a) (Py.lower b) = true.
Proof.
  revert a; induction b as [|y b IH]; intros [|x a]; simpl; try easy.
  destruct (ascii_dec x y) as [->|]; [|easy].
  intros H. destruct (ascii_dec (Py.lower_char y) (Py.lower_char y)); auto.
Qed.

Lemma contains_lower (a b : string) :
  Py.contains a b = true -> Py.contains (Py.lower a) (Py.lower b) = true.
Proof.
  induction b as [|y b IH]; simpl; rewrite !orb_true_iff.
  - intros [H|H]; [|easy]. left. exact (prefix_lower a "" H).
  - intros [H|H].
    + left. exact (prefix_lower a (String y b) H).
    + right. auto.
Qed.

Lemma lower_space (c : ascii) :
  Py.is_space c = true -> Py.lower_char c = c.
Proof.
  unfold Py.is_space, Py.lower_char, Py.is_upper.
  set (n := nat_of_ascii c). cbv zeta. intros H.
  destruct (_ || _ || _)%bool eqn:E at 1; [|reflexivity].
  exfalso.
  rewrite ?orb_true_iff, ?andb_true_iff, ?Nat.leb_le, ?Nat.eqb_eq in H.
  rewrite ?orb_true_iff, ?andb_true_iff, ?Nat.leb_le, ?Nat.eqb_eq in E.
  lia.
Qed.

Lemma lower_blank (s : string) :
  Spec.blank s = true -> Spec.blank (Py.lower s) = true.
Proof.
  induction s as [|c s IH]; simpl; [easy|].
  rewrite !andb_true_iff. intros [Hc Hs].
  rewrite (lower_space c Hc). auto.
Qed.

Lemma split_blank (s : string) :
  Spec.blank s = true -> Py.split s = [].
Proof.
  unfold Py.split.
  induction s as [|c s IH]; simpl; [easy|].
  rewrite andb_true_iff. intros [-> Hs]. simpl. auto.
Qed.

(* ================================================================= *)
(** ** Location *)

Lemma state_mapping_truthy (k st : string) :
  Py.get state_mapping k = Some st -> Py.truthy st = true.
Proof.
  unfold state_mapping; simpl.
  repeat (destruct (String.eqb k _); [intros [= <-]; reflexivity|]).
  discriminate.
Qed.

(** C6.  The location sub-score is 1.0 for case-insensitive equal labels,
    else 0.7 when the city-to-state lookup sends both labels to one state,
    else 0.3; it is never below 0.3. *)
Theorem location_score_tiers (candidate_location internship_location : string) :
  let s := calculate_location_score candidate_location internship_location in
  let same_state :=
    exists st,
      Py.get state_mapping (Py.lower candidate_location) = Some st
      /\ Py.get state_mapping (Py.lower internship_location) = Some st in
  (Spec.ci_equal candidate_location internship_location = true -> s == 1)
  /\ (Spec.ci_equal candidate_location internship_location = false ->
      same_state -> s == 0.7)
  /\ (Spec.ci_equal candidate_location internship_location = false ->
      ~ same_state -> s == 0.3)
  /\ 0.3 <= s.
Proof.
  cbv zeta. unfold calculate_location_score, Spec.ci_equal.
  destruct (String.eqb _ _) eqn:E.
  - repeat split; try easy. 
  - destruct (Py.get state_mapping (Py.lower candidate_location)) as [cs|] eqn:Ec;
      destruct (Py.get state_mapping (Py.lower internship_location)) as [ist|] eqn:Ei.
    + rewrite (state_mapping_truthy _ _ Ec), (state_mapping_truthy _ _ Ei); simpl.
      destruct (String.eqb cs ist) eqn:Es.
      * apply String.eqb_eq in Es; subst ist.
        repeat split; try easy.
        intros _ []. now exists cs.
      * apply String.eqb_neq in Es.
        repeat split; try easy.
        intros _ (st & [= ->] & [= ->]). now destruct Es.
    + repeat split; try easy. intros _ (st & _ & [=]).
    + repeat split; try easy. intros _ (st & [=] & _).
    + repeat split; try easy. intros _ (st & [=] & _).
Qed.

Lemma location_score_tiers_witness :
  calculate_location_score "Delhi" "DELHI" == 1
  /\ calculate_location_score "Mumbai" "Pune" == 0.7
  /\ calculate_location_score "Delhi" "Jaipur" == 0.3.
Proof.
  split; [|split].
  - apply (proj1 (location_score_tiers "Delhi" "DELHI")). reflexivity.
  - apply (proj1 (proj2 (location_score_tiers "Mumbai" "Pune"))).
    + reflexivity.
    + exists "maharashtra". split; reflexivity.
  - apply (proj1 (proj2 (proj2 (location_score_tiers "Delhi" "Jaipur")))).
    + reflexivity.
    + intros (st & _ & H). vm_compute in H. discriminate.
Defined.

Lemma location_score_unit (a b : string) :
  Spec.in_unit (calculate_location_score a b).
Proof.
  unfold Spec.in_unit, calculate_location_score.
  destruct (String.eqb _ _); [split; easy|].
  destruct (Py.get _ _); [destruct (Py.get _ _)|];
    try (split; easy).
  destruct (_ && _ && _)%bool; split; easy.
Qed.

(* ================================================================= *)
(** ** Diversity *)

Lemma mem_SC_ST (category : string) :
  Py.mem category ["SC"; "ST"]
  = (String.eqb category "SC" || String.eqb category "ST")%bool.
Proof. unfold Py.mem; simpl. now rewrite orb_false_r. Qed.

Lemma diversity_score_bonuses (c : Candidate.t) :
  calculate_diversity_score c
  == Qmin (Spec.category_bonus c + Spec.district_bonus c
           + Spec.rural_bonus c + Spec.first_time_bonus c) 1.
Proof.
  unfold calculate_diversity_score, Spec.category_bonus, Spec.district_bonus,
    Spec.rural_bonus, Spec.first_time_bonus, Spec.in_aspirational_district,
    Spec.ci_substring, Py.any.
  change (Py.lower "rural") with "rural".
  rewrite mem_SC_ST.
  destruct (_ || _)%bool; [|destruct (String.eqb _ "OBC")];
    destruct (existsb _ aspirational_districts);
    destruct (Py.contains "rural" _);
    destruct (Candidate.past_participation c); reflexivity.
Qed.

Lemma listed_district_ci (c : Candidate.t) :
  (exists d, In d aspirational_districts
             /\ Py.contains d (Candidate.district c) = true) ->
  Spec.in_aspirational_district c = true.
Proof.
  intros (d & Hd & Hc). unfold Spec.in_aspirational_district.
  apply existsb_exists. exists d. split; [assumption|].
  now apply contains_lower.
Qed.

(** C7.  The diversity sub-score is the sum of the category bonus (0.5 for
    SC or ST, else 0.3 for OBC), 0.3 for an aspirational district, 0.2 for a
    rural district and 0.2 for a first-time candidate, capped at 1.0; an SC
    candidate of a listed district who was never placed scores exactly
    1.0. *)
Theorem diversity_score_sum (c : Candidate.t) :
  calculate_diversity_score c
  == Qmin (Spec.category_bonus c + Spec.district_bonus c
           + Spec.rural_bonus c + Spec.first_time_bonus c) 1
  /\ (Candidate.category c = "SC" ->
      (exists d, In d aspirational_districts
                 /\ Py.contains d (Candidate.district c) = true) ->
      Candidate.past_participation c = false ->
      calculate_diversity_score c == 1).
Proof.
  split; [apply diversity_score_bonuses|].
  intros Hcat Hd Hp. rewrite diversity_score_bonuses.
  unfold Spec.category_bonus, Spec.district_bonus, Spec.first_time_bonus.
  rewrite Hcat, Hp, (listed_district_ci c Hd). simpl.
  unfold Spec.rural_bonus. destruct (Spec.ci_substring _ _); reflexivity.
Qed.

Lemma diversity_score_sum_witness :
  calculate_diversity_score Cases.listed_sc_candidate == 1.
Proof.
  refine (proj2 (diversity_score_sum Cases.listed_sc_candidate) _ _ _).
  - reflexivity.
  - exists "Sabarkantha". split; [simpl; tauto | reflexivity].
  - reflexivity.
Defined.

Lemma diversity_score_unit (c : Candidate.t) :
  Spec.in_unit (calculate_diversity_score c).
Proof.
  unfold Spec.in_unit. rewrite diversity_score_bonuses.
  unfold Spec.category_bonus, Spec.district_bonus, Spec.rural_bonus,
    Spec.first_time_bonus.
  destruct (_ || _)%bool; [|destruct (String.eqb _ "OBC")];
    destruct (Spec.in_aspirational_district c);
    destruct (Spec.ci_substring "rural" _);
    destruct (Candidate.past_participation c); split; easy.
Qed.

(* ================================================================= *)
(** ** Sector, qualification, academic *)

Lemma sector_score_unit (c : Candidate.t) (i : Internship.t) :
  Spec.in_unit (sector_score c i).
Proof. unfold Spec.in_unit, sector_score. destruct (String.eqb _ _); split; easy. Qed.

Lemma qual_score_unit (c : Candidate.t) (i : Internship.t) :
  Spec.in_unit (qual_score c i).
Proof. unfold Spec.in_unit, qual_score. destruct (Py.any _ _); split; easy. Qed.

Lemma academic_score_le_1 (c : Candidate.t) : academic_score c <= 1.
Proof. unfold academic_score. apply Q.le_min_r. Qed.

Lemma academic_score_nonneg (c : Candidate.t) :
  0 <= Candidate.cgpa c -> 0 <= academic_score c.
Proof.
  intros H. unfold academic_score. apply Q.min_glb; [|easy].
  unfold Qdiv. apply Qmult_le_0_compat; easy.
Qed.

(** C10.  When the preferred-qualification text of the internship is empty
    or made of blanks only, the qualification sub-score is 0.5 and not
    1.0. *)
Theorem qual_score_blank (c : Candidate.t) (i : Internship.t) :
  Spec.blank (Internship.preferred_qualification i) = true ->
  qual_score c i == 0.5 /\ ~ qual_score c i == 1.
Proof.
  intros H. unfold qual_score.
  rewrite (split_blank _ (lower_blank _ H)). simpl. split; easy.
Qed.

Lemma qual_score_blank_witness :
  qual_score Cases.borderline_candidate Cases.blank_qualification == 0.5
  /\ ~ qual_score Cases.borderline_candidate Cases.blank_qualification == 1.
Proof.
  refine (qual_score_blank Cases.borderline_candidate
                           Cases.blank_qualification _).
  reflexivity.
Defined.

(* ================================================================= *)
(** ** Skills *)

Lemma similar_in_existsb (groups : list (string * list string)) (a b : string) :
  similar_in groups a b
  = existsb (fun g => Py.mem a (snd g) && Py.mem b (snd g)) groups.
Proof.
  induction groups as [|[k g] groups IH]; simpl; [reflexivity|].
  rewrite IH. now destruct (_ && _)%bool.
Qed.

Lemma scan_step (req cand : string) (rest : list string) (matches : Q) :
  scan_candidate_skills req (cand :: rest) matches
  = match Spec.classify req cand with
    | Spec.NONE => scan_candidate_skills req rest matches
    | r => matches + Spec.credit r
    end.
Proof.
  simpl. unfold Spec.classify, Spec.ci_equal, Spec.ci_substring,
    Spec.same_group, _are_similar_skills.
  rewrite similar_in_existsb.
  destruct (String.eqb _ _); [reflexivity|].
  destruct (_ || _)%bool; [reflexivity|].
  now destruct (existsb _ skill_groups).
Qed.

Lemma scan_contribution (req : string) (cands : list string) (matches : Q) :
  scan_candidate_skills req cands matches
  == matches + Spec.contribution cands req.
Proof.
  unfold Spec.contribution.
  induction cands as [|cand rest IH].
  - simpl. ring.
  - rewrite scan_step. simpl find. unfold Spec.related.
    destruct (Spec.classify req cand) eqn:E; cbv iota beta; rewrite ?E;
      try reflexivity. exact IH.
Qed.

Lemma fold_scan (cands reqs : list string) (matches : Q) :
  fold_left (fun matches req_skill =>
               scan_candidate_skills req_skill cands matches) reqs matches
  == matches + Spec.Qsum (map (Spec.contribution cands) reqs).
Proof.
  revert matches; induction reqs as [|r reqs IH]; intros matches; simpl.
  - ring.
  - rewrite IH, scan_contribution. ring.
Qed.

Lemma credit_unit (r : Spec.relatedness) : Spec.in_unit (Spec.credit r).
Proof. destruct r; split; easy. Qed.

Lemma contribution_nonneg (cands : list string) (req : string) :
  0 <= Spec.contribution cands req.
Proof.
  unfold Spec.contribution. destruct (find _ _); [apply credit_unit|easy].
Qed.

Lemma Qsum_nonneg (l : list Q) : Forall (fun x => 0 <= x) l -> 0 <= Spec.Qsum l.
Proof.
  induction 1 as [|x l Hx _ IH]; simpl; [easy|].
  now apply Qplus_nonneg_nonneg || (rewrite <- (Qplus_0_r 0); now apply Qplus_le_compat).
Qed.

Lemma skills_match_sum (cand req : string) (cands reqs : list string) :
  calculate_skills_match (cand :: cands) (req :: reqs)
  == Qmin (Spec.Qsum (map (Spec.contribution (cand :: cands)) (req :: reqs))
           / inject_Z (Z.of_nat (List.length (req :: reqs)))) 1.
Proof.
  unfold calculate_skills_match.
  rewrite fold_scan. now rewrite Qplus_0_l.
Qed.

(** C3.  The skills sub-score is 0 when either list is empty; otherwise each
    required skill contributes the credit (1.0 exact, 0.7 substring, 0.5
    same group) of the first candidate skill related to it at any level,
    and the sum of the contributions over the number of required skills is
    capped at 1.0. *)
Theorem skills_match_first_related
        (cand req : string) (cands reqs : list string) :
  calculate_skills_match [] reqs == 0
  /\ calculate_skills_match cands [] == 0
  /\ calculate_skills_match (cand :: cands) (req :: reqs)
     == Qmin (Spec.Qsum (map (Spec.contribution (cand :: cands)) (req :: reqs))
              / inject_Z (Z.of_nat (List.length (req :: reqs)))) 1.
Proof.
  split; [reflexivity|]. split; [now destruct cands|].
  apply skills_match_sum.
Qed.

Lemma skills_match_unit (cands reqs : list string) :
  Spec.in_unit (calculate_skills_match cands reqs).
Proof.
  destruct cands as [|c cands]; [split; easy|].
  destruct reqs as [|r reqs]; [split; easy|].
  unfold Spec.in_unit. rewrite skills_match_sum.
  split; [|apply Q.le_min_r].
  apply Q.min_glb; [|easy].
  apply Qle_shift_div_l.
  - change 0 with (inject_Z 0). rewrite <- Zlt_Qlt.
    simpl List.length. lia.
  - rewrite Qmult_0_l. apply Qsum_nonneg, Forall_forall.
    intros x Hx. apply in_map_iff in Hx as (q & <- & _).
    apply contribution_nonneg.
Qed.

(* ================================================================= *)
(** ** Rounding *)

Lemma round_half_even_bounds (x : Q) :
  (Qfloor x <= Py.round_half_even x <= Qfloor x + 1)%Z.
Proof.
  unfold Py.round_half_even.
  destruct (Qcompare _ _); [destruct (Z.even _)| |]; lia.
Qed.

Lemma round_half_even_integer (z : Z) :
  Py.round_half_even (inject_Z z) = z.
Proof.
  unfold Py.round_half_even. rewrite Qfloor_Z.
  assert (E : inject_Z z - inject_Z z == 0) by ring.
  rewrite E. reflexivity.
Qed.

Lemma round_half_even_comp (x y : Q) :
  x == y -> Py.round_half_even x = Py.round_half_even y.
Proof.
  intros E. unfold Py.round_half_even.
  rewrite (Qfloor_comp _ _ E).
  assert (E' : x - inject_Z (Qfloor y) == y - inject_Z (Qfloor y))
    by now rewrite E.
  now rewrite E'.
Qed.

Lemma round_comp (x y : Q) (n : nat) : x == y -> Py.round x n == Py.round y n.
Proof.
  intros E. unfold Py.round.
  set (p := inject_Z (10 ^ Z.of_nat n)).
  rewrite (round_half_even_comp (x * p) (y * p)); [reflexivity|].
  now rewrite E.
Qed.

Lemma round_half_even_mono_int (x : Q) (lo hi : Z) :
  inject_Z lo <= x -> x <= inject_Z hi ->
  (lo <= Py.round_half_even x <= hi)%Z.
Proof.
  intros Hlo Hhi.
  pose proof (round_half_even_bounds x) as [B1 B2].
  assert (F1 : (lo <= Qfloor x)%Z).
  { rewrite <- (Qfloor_Z lo). now apply Qfloor_resp_le. }
  assert (F2 : (Qfloor x <= hi)%Z).
  { rewrite <- (Qfloor_Z hi). now apply Qfloor_resp_le. }
  split; [lia|].
  destruct (Z.eq_dec (Qfloor x) hi) as [E|N]; [|lia].
  assert (Ex : x == inject_Z hi).
  { apply Qle_antisym; [assumption|]. rewrite <- E. apply Qfloor_le. }
  rewrite (round_half_even_comp _ _ Ex), round_half_even_integer. lia.
Qed.

Lemma round1_bounds (x : Q) :
  0 <= x -> x <= 100 -> 0 <= Py.round x 1 /\ Py.round x 1 <= 100.
Proof.
  intros H0 H1. unfold Py.round.
  change (inject_Z (10 ^ Z.of_nat 1)) with 10.
  destruct (round_half_even_mono_int (x * 10) 0 1000) as [A B].
  - change (inject_Z 0) with 0. lra.
  - change (inject_Z 1000) with 1000. lra.
  - rewrite Zle_Qle in A, B.
    change (inject_Z 0) with 0 in A. change (inject_Z 1000) with 1000 in B.
    split.
    + apply Qle_shift_div_l; lra.
    + apply Qle_shift_div_r; lra.
Qed.

(* ================================================================= *)
(** ** The stable sort by decreasing key *)

Section SortReverse.

Context {A : Type} (key : A -> Q).

Lemma Qlt_bool_iff (x y : Q) : Py.Qlt_bool x y = true <-> x < y.
Proof.
  unfold Py.Qlt_bool. rewrite negb_true_iff, <- not_true_iff_false, Qle_bool_iff.
  split; [apply Qnot_le_lt | apply Qlt_not_le].
Qed.

Lemma Qlt_bool_false (x y : Q) : Py.Qlt_bool x y = false <-> y <= x.
Proof.
  unfold Py.Qlt_bool. now rewrite negb_false_iff, Qle_bool_iff.
Qed.

Lemma insert_desc_perm (x : A) (l : list A) :
  Permutation (x :: l) (Py.insert_desc key x l).
Proof.
  induction l as [|y l IH]; simpl; [reflexivity|].
  destruct (Py.Qlt_bool _ _); [|reflexivity].
  rewrite perm_swap. now constructor.
Qed.

Lemma sort_reverse_perm (l : list A) :
  Permutation l (Py.sort_reverse key l).
Proof.
  induction l as [|x l IH]; simpl; [constructor|].
  rewrite <- insert_desc_perm. now constructor.
Qed.

Lemma sort_reverse_In (l : list A) (a : A) :
  In a (Py.sort_reverse key l) <-> In a l.
Proof.
  split; apply Permutation_in;
    [symmetry|]; apply sort_reverse_perm.
Qed.

Lemma sort_reverse_length (l : list A) :
  List.length (Py.sort_reverse key l) = List.length l.
Proof. symmetry. apply Permutation_length, sort_reverse_perm. Qed.

Lemma insert_desc_sorted (x : A) (l : list A) :
  StronglySorted (Spec.desc key) l -> StronglySorted (Spec.desc key) (Py.insert_desc key x l).
Proof.
  induction 1 as [|y l Hl IH Hy]; simpl.
  - repeat constructor.
  - destruct (Py.Qlt_bool (key x) (key y)) eqn:E.
    + constructor; [assumption|].
      rewrite <- insert_desc_perm. constructor; [|assumption].
      apply Qlt_bool_iff in E. now apply Qlt_le_weak.
    + apply Qlt_bool_false in E.
      constructor; [now constructor|].
      constructor; [exact E|].
      eapply Forall_impl; [|exact Hy].
      intros z Hz. unfold Spec.desc in *. now apply Qle_trans with (key y).
Qed.

Lemma sort_reverse_sorted (l : list A) :
  StronglySorted (Spec.desc key) (Py.sort_reverse key l).
Proof.
  induction l as [|x l IH]; simpl; [constructor|].
  now apply insert_desc_sorted.
Qed.

(** An inserted element only passes elements of a strictly larger key, so
    it never overtakes one of its own key. *)
Lemma insert_desc_keyed (q : Q) (x : A) (l : list A) :
  Spec.keyed key q (Py.insert_desc key x l) = Spec.keyed key q (x :: l).
Proof.
  induction l as [|y l IH]; simpl; [reflexivity|].
  destruct (Py.Qlt_bool (key x) (key y)) eqn:E; [|reflexivity].
  apply Qlt_bool_iff in E.
  unfold Spec.keyed in *. simpl in *. rewrite IH.
  destruct (Qeq_bool (key x) q) eqn:Ex, (Qeq_bool (key y) q) eqn:Ey;
    try reflexivity.
  apply Qeq_bool_iff in Ex, Ey. rewrite Ex, Ey in E.
  now apply Qlt_irrefl in E.
Qed.

Lemma sort_reverse_keyed (q : Q) (l : list A) :
  Spec.keyed key q (Py.sort_reverse key l) = Spec.keyed key q l.
Proof.
  induction l as [|x l IH]; simpl; [reflexivity|].
  rewrite insert_desc_keyed. unfold Spec.keyed in *. simpl. now rewrite IH.
Qed.

(** Two rankings of one list that are both non-increasing and both keep
    the order among equal keys are the same list. *)
Lemma stable_sorted_unique (l1 l2 : list A) :
  StronglySorted (Spec.desc key) l1 -> StronglySorted (Spec.desc key) l2 ->
  (forall q, Spec.keyed key q l1 = Spec.keyed key q l2) -> l1 = l2.
Proof.
  intros S1; revert l2.
  induction S1 as [|x l1 S1 IH F1]; intros l2 S2 K.
  - destruct l2 as [|y l2]; [reflexivity|].
    specialize (K (key y)). unfold Spec.keyed in K. simpl in K.
    rewrite (proj2 (Qeq_bool_iff _ _) (Qeq_refl _)) in K. discriminate.
  - destruct S2 as [|y l2 S2 F2].
    + specialize (K (key x)). unfold Spec.keyed in K. simpl in K.
      rewrite (proj2 (Qeq_bool_iff _ _) (Qeq_refl _)) in K. discriminate.
    + assert (Hxy : key x == key y).
      { apply Qle_antisym.
        - assert (Hx : In x (Spec.keyed key (key x) (y :: l2))).
          { rewrite <- K. unfold Spec.keyed. simpl.
            rewrite (proj2 (Qeq_bool_iff _ _) (Qeq_refl _)). now left. }
          apply filter_In in Hx as [[<-|Hx] _]; [apply Qle_refl|].
          rewrite Forall_forall in F2. now apply F2.
        - assert (Hy : In y (Spec.keyed key (key y) (x :: l1))).
          { rewrite K. unfold Spec.keyed. simpl.
            rewrite (proj2 (Qeq_bool_iff _ _) (Qeq_refl _)). now left. }
          apply filter_In in Hy as [[<-|Hy] _]; [apply Qle_refl|].
          rewrite Forall_forall in F1. now apply F1. }
      assert (Hq : forall q, Qeq_bool (key x) q = Qeq_bool (key y) q).
      { intros q. destruct (Qeq_bool (key y) q) eqn:E.
        - apply Qeq_bool_iff. apply Qeq_bool_iff in E. now rewrite Hxy.
        - apply not_true_iff_false. intros E'. apply Qeq_bool_iff in E'.
          apply not_true_iff_false in E. apply E, Qeq_bool_iff.
          now rewrite <- Hxy. }
      assert (Ex : x = y).
      { specialize (K (key x)). unfold Spec.keyed in K. simpl in K.
        rewrite <- Hq, (proj2 (Qeq_bool_iff _ _) (Qeq_refl _)) in K.
        now injection K. }
      subst y. f_equal. apply IH; [assumption|].
      intros q. specialize (K q). unfold Spec.keyed in *. simpl in K.
      destruct (Qeq_bool (key x) q); [now injection K | exact K].
Qed.

End SortReverse.

Lemma insert_desc_map {A B : Type} (key : A -> Q) (key' : B -> Q) (f : A -> B)
      (x : A) (l : list A) :
  (forall a, key' (f a) = key a) ->
  map f (Py.insert_desc key x l) = Py.insert_desc key' (f x) (map f l).
Proof.
  intros Hk. induction l as [|y l IH]; simpl; [reflexivity|].
  rewrite !Hk. destruct (Py.Qlt_bool _ _); simpl; now rewrite ?IH.
Qed.

Lemma sort_reverse_map {A B : Type} (key : A -> Q) (key' : B -> Q) (f : A -> B)
      (l : list A) :
  (forall a, key' (f a) = key a) ->
  map f (Py.sort_reverse key l) = Py.sort_reverse key' (map f l).
Proof.
  intros Hk. induction l as [|x l IH]; simpl; [reflexivity|].
  now rewrite (insert_desc_map key key' f), IH.
Qed.

(* ================================================================= *)
(** ** The loops of a run *)

Import PMInternshipSystem.

Lemma inner_loop (now : nat -> Z) (c : Candidate.t) (ins : list Internship.t)
      (acc : list Match.t) (k : nat) :
  fold_left (score_internship now c) ins (acc, k)
  = (acc ++ Trace.scored now c ins k, (k + List.length ins)%nat).
Proof.
  revert acc k; induction ins as [|i ins IH]; intros acc k; simpl.
  - now rewrite app_nil_r, Nat.add_0_r.
  - rewrite IH, <- app_assoc. simpl. f_equal. lia.
Qed.

Lemma outer_loop (now : nat -> Z) (ins : list Internship.t)
      (cs : list Candidate.t) (acc : list Match.t) (k : nat) :
  fold_left (match_candidate now ins) cs (acc, k)
  = (acc ++ List.concat (map Trace.top3 (Trace.per_candidate now ins cs k)),
     (k + List.length cs * List.length ins)%nat).
Proof.
  revert acc k; induction cs as [|c cs IH]; intros acc k; simpl.
  - now rewrite app_nil_r, Nat.add_0_r.
  - rewrite inner_loop. simpl. rewrite IH, <- app_assoc.
    f_equal. lia.
Qed.

Lemma insert_rows (table ms : list Match.t) :
  fold_left (fun table m => table ++ [m]) ms table = table ++ ms.
Proof.
  revert table; induction ms as [|m ms IH]; intros table; simpl.
  - now rewrite app_nil_r.
  - now rewrite IH, <- app_assoc.
Qed.

Lemma save_matches_table (db : InternshipDatabase.t) (ms : list Match.t) :
  InternshipDatabase.save_matches db ms
  = InternshipDatabase.mk (InternshipDatabase.candidates db)
                          (InternshipDatabase.internships db) ms.
Proof.
  unfold InternshipDatabase.save_matches. now rewrite insert_rows.
Qed.

Lemma run_unfold (self : t) :
  let cs := InternshipDatabase.candidates (db self) in
  let ins := InternshipDatabase.internships (db self) in
  let ranking :=
    Py.sort_reverse Match.score
      (List.concat (map Trace.top3
                        (Trace.per_candidate (now self) ins cs (ticks self)))) in
  run_matching_algorithm self
  = (ranking,
     mk (InternshipDatabase.mk cs ins ranking) ranking (now self)
        (ticks self + List.length cs * List.length ins)).
Proof.
  cbv zeta. unfold run_matching_algorithm,
    InternshipDatabase.get_all_candidates, InternshipDatabase.get_all_internships.
  rewrite outer_loop. simpl. now rewrite save_matches_table.
Qed.

(** *** Every match comes from a pair of the snapshot *)

Lemma scored_pairs (now : nat -> Z) (c : Candidate.t)
      (ins : list Internship.t) (k : nat) :
  Forall2 (fun i m => exists ts, m = make_match c i ts)
          ins (Trace.scored now c ins k).
Proof.
  revert k; induction ins as [|i ins IH]; intros k; simpl; constructor; eauto.
Qed.

Lemma per_candidate_pairs (now : nat -> Z) (ins : list Internship.t)
      (cs : list Candidate.t) (k : nat) :
  Forall2 (fun c ms => Forall2 (fun i m => exists ts, m = make_match c i ts)
                               ins ms)
          cs (Trace.per_candidate now ins cs k).
Proof.
  revert k; induction cs as [|c cs IH]; intros k; simpl; constructor;
    auto using scored_pairs.
Qed.

Lemma firstn_incl {A : Type} (n : nat) (l : list A) (a : A) :
  In a (firstn n l) -> In a l.
Proof.
  intros H. rewrite <- (firstn_skipn n l). apply in_or_app. now left.
Qed.

Lemma top3_incl (ms : list Match.t) (m : Match.t) :
  In m (Trace.top3 ms) -> In m ms.
Proof.
  unfold Trace.top3. intros H. apply firstn_incl in H.
  now apply sort_reverse_In in H.
Qed.

Lemma Forall2_In_r {A B : Type} (R : A -> B -> Prop) (l : list A)
      (l' : list B) (b : B) :
  Forall2 R l l' -> In b l' -> exists a, In a l /\ R a b.
Proof.
  induction 1 as [|x y l l' Hxy _ IH]; simpl; [easy|].
  intros [<-|Hb]; [now exists x; auto|].
  destruct (IH Hb) as (a & Ha & HR). exists a; auto.
Qed.

Lemma run_matches_origin (self : t) :
  Forall (fun m =>
            exists c i ts,
              In c (InternshipDatabase.candidates (db self))
              /\ In i (InternshipDatabase.internships (db self))
              /\ m = make_match c i ts)
         (fst (run_matching_algorithm self)).
Proof.
  rewrite run_unfold. cbv zeta. simpl fst.
  apply Forall_forall. intros m Hm.
  apply sort_reverse_In, in_concat in Hm as (kept & Hk & Hm).
  apply in_map_iff in Hk as (ms & <- & Hms).
  apply top3_incl in Hm.
  destruct (Forall2_In_r _ _ _ _ (per_candidate_pairs _ _ _ _) Hms)
    as (c & Hc & Hpairs).
  destruct (Forall2_In_r _ _ _ _ Hpairs Hm) as (i & Hi & ts & ->).
  now exists c, i, ts.
Qed.

(** *** Timestamps do not influence the ranking *)

Lemma untimed_make_match (c : Candidate.t) (i : Internship.t) (ts : Z) :
  Spec.untimed (make_match c i ts) = make_match c i 0.
Proof.
  unfold make_match. now destruct (calculate_match_score c i).
Qed.

Lemma untimed_scored (now : nat -> Z) (c : Candidate.t)
      (ins : list Internship.t) (k : nat) :
  map Spec.untimed (Trace.scored now c ins k)
  = map (fun i => make_match c i 0) ins.
Proof.
  revert k; induction ins as [|i ins IH]; intros k; simpl; [reflexivity|].
  now rewrite untimed_make_match, IH.
Qed.

Lemma untimed_top3 (ms : list Match.t) :
  map Spec.untimed (Trace.top3 ms) = Trace.top3 (map Spec.untimed ms).
Proof.
  unfold Trace.top3.
  rewrite <- (sort_reverse_map Match.score Match.score Spec.untimed)
    by reflexivity.
  now rewrite firstn_map.
Qed.

Lemma untimed_per_candidate (now : nat -> Z) (ins : list Internship.t)
      (cs : list Candidate.t) (k : nat) :
  map (map Spec.untimed) (map Trace.top3 (Trace.per_candidate now ins cs k))
  = map (fun c => Trace.top3 (map (fun i => make_match c i 0) ins)) cs.
Proof.
  revert k; induction cs as [|c cs IH]; intros k; simpl; [reflexivity|].
  now rewrite untimed_top3, untimed_scored, IH.
Qed.

Lemma untimed_run (self : t) :
  map Spec.untimed (fst (run_matching_algorithm self))
  = Trace.untimed_ranking (InternshipDatabase.candidates (db self))
                          (InternshipDatabase.internships (db self)).
Proof.
  rewrite run_unfold. cbv zeta. simpl fst. unfold Trace.untimed_ranking.
  rewrite (sort_reverse_map Match.score Match.score Spec.untimed)
    by reflexivity.
  now rewrite concat_map, untimed_per_candidate.
Qed.

(* ================================================================= *)
(** ** Binary64 arithmetic *)

Section SpecFloat.

Local Open Scope Z_scope.












End SpecFloat.

Section Exact.

Local Open Scope Z_scope.










End Exact.

Section Float.

Local Open Scope float_scope.















End Float.

(* ================================================================= *)
(** ** Aggregate score *)

Lemma match_score_value (c : Candidate.t) (i : Internship.t) :
  fst (calculate_match_score c i)
  = Qmin (Spec.weighted_sum
            (calculate_skills_match (Candidate.skills c)
                                    (Internship.required_skills i))
            (calculate_location_score (Candidate.location c)
                                      (Internship.location i))
            (sector_score c i) (qual_score c i)
            (calculate_diversity_score c) (academic_score c) * 100) 100.
Proof. reflexivity. Qed.

Lemma make_match_fields (c : Candidate.t) (i : Internship.t) (ts : Z) :
  Match.score (make_match c i ts) = Py.round (fst (calculate_match_score c i)) 1
  /\ Match.status (make_match c i ts)
     = status_of (fst (calculate_match_score c i))
  /\ Match.candidate_id (make_match c i ts) = Candidate.id c
  /\ Match.internship_id (make_match c i ts) = Internship.id i.
Proof.
  unfold make_match. now destruct (calculate_match_score c i).
Qed.

Lemma match_score_nonneg (c : Candidate.t) (i : Internship.t) :
  0 <= Candidate.cgpa c -> 0 <= fst (calculate_match_score c i).
Proof.
  intros Hc. rewrite match_score_value. apply Q.min_glb; [|easy].
  pose proof (skills_match_unit (Candidate.skills c)
                                (Internship.required_skills i)) as [? _].
  pose proof (location_score_unit (Candidate.location c)
                                  (Internship.location i)) as [? _].
  pose proof (sector_score_unit c i) as [? _].
  pose proof (qual_score_unit c i) as [? _].
  pose proof (diversity_score_unit c) as [? _].
  pose proof (academic_score_nonneg c Hc).
  unfold Spec.weighted_sum. lra.
Qed.

(** C5.  For a candidate whose academic score lies in [0,10] and any
    internship, the aggregate score that the match scorer returns lies in
    [0,100], and so does its stored one-decimal rounding. *)
Theorem match_score_range (c : Candidate.t) (i : Internship.t) :
  0 <= Candidate.cgpa c -> Candidate.cgpa c <= 10 ->
  (0 <= fst (calculate_match_score c i)
   /\ fst (calculate_match_score c i) <= 100)
  /\ (forall ts, 0 <= Match.score (make_match c i ts)
                 /\ Match.score (make_match c i ts) <= 100).
Proof.
  intros Hlo Hhi.
  assert (B : 0 <= fst (calculate_match_score c i)
              /\ fst (calculate_match_score c i) <= 100).
  { split; [now apply match_score_nonneg|].
    rewrite match_score_value. apply Q.le_min_r. }
  split; [exact B|]. intros ts.
  destruct (make_match_fields c i ts) as (-> & _).
  now apply round1_bounds.
Qed.

Lemma match_score_range_witness :
  (0 <= fst (calculate_match_score Cases.borderline_candidate
                                   Cases.borderline_internship)
   /\ fst (calculate_match_score Cases.borderline_candidate
                                 Cases.borderline_internship) <= 100)
  /\ (forall ts,
         0 <= Match.score (make_match Cases.borderline_candidate
                                      Cases.borderline_internship ts)
         /\ Match.score (make_match Cases.borderline_candidate
                                    Cases.borderline_internship ts) <= 100).
Proof.
  refine (match_score_range Cases.borderline_candidate
                            Cases.borderline_internship _ _);
    vm_compute; discriminate.
Defined.




(** Exact arithmetic and binary64 part at a tie.  For a pair that agrees on
    everything, with a first-time candidate whose academic score is 6.5,
    the sum of the exact products is 90.25, which rounds (half to even) to
    90.2; the engine's aggregate is the double just above 90.25 and the
    stored score is 90.3.  For a candidate without a matching skill whose
    academic score is 1.5, the exact sum is 45.75, which rounds to 45.8;
    the engine's aggregate is the double just below 45.75 and the stored
    score is 45.7. *)
Lemma binary64_tie :
  (fst (calculate_match_score Binary64.first_timer Binary64.opening) == 90.25
   /\ Py.round
        (fst (calculate_match_score Binary64.first_timer Binary64.opening)) 1
      == 90.2
   /\ fst (Binary64.calculate_match_score Binary64.first_timer 6.5
                                          Binary64.opening)
      = 90.250000000000014%float
   /\ Binary64.stored_score Binary64.first_timer 6.5 Binary64.opening
      = 90.3%float)
  /\ (fst (calculate_match_score Binary64.returning Binary64.opening) == 45.75
      /\ Py.round
           (fst (calculate_match_score Binary64.returning Binary64.opening)) 1
         == 45.8
      /\ fst (Binary64.calculate_match_score Binary64.returning 1.5
                                             Binary64.opening)
         = 45.749999999999993%float
      /\ Binary64.stored_score Binary64.returning 1.5 Binary64.opening
         = 45.7%float).
Proof. repeat split; vm_compute; reflexivity. Qed.

(** The aggregate of a pair can fall just short of the exact sum: with an
    academic score of 10 the exact sum for [returning] is 50 and the
    engine's aggregate is the double just below 50.  Three partial skill
    matches out of three give the double just below 0.7. *)
Lemma binary64_below_exact :
  fst (Binary64.calculate_match_score Binary64.returning 10 Binary64.opening)
  = 49.999999999999993%float
  /\ Binary64.stored_score Binary64.returning 10 Binary64.opening = 50%float
  /\ Binary64.calculate_skills_match ["a"; "b"; "c"] ["xa"; "xb"; "xc"]
     = 0.69999999999999984%float.
Proof. repeat split; vm_compute; reflexivity. Qed.

(** [round(x, 1)] on a few doubles.  0.25 is a tie and goes to the even
    digit; the doubles written 0.35 and 0.15 lie below those decimals and
    the one written 0.05 above it; the sign of a zero is kept; a large
    double and an infinity are returned as they are. *)
Lemma round1_examples :
  (Binary64.round1 0.25 = 0.2 /\ Binary64.round1 0.35 = 0.3
   /\ Binary64.round1 0.15 = 0.1 /\ Binary64.round1 0.05 = 0.1
   /\ Binary64.round1 2.675 = 2.7 /\ Binary64.round1 69.975 = 70
   /\ Binary64.round1 (-0.04) = -0 /\ Binary64.round1 (-0.25) = -0.2
   /\ Binary64.round1 1e300 = 1e300
   /\ Binary64.round1 infinity = infinity)%float.
Proof. repeat split; vm_compute; reflexivity. Qed.

(* ================================================================= *)
(** ** Status tier *)

Lemma status_of_tiers (score : Q) :
  (status_of score = "excellent" <-> 70 <= score)
  /\ (status_of score = "good" <-> 50 <= score /\ score < 70)
  /\ (status_of score = "fair" <-> score < 50).
Proof.
  unfold status_of.
  destruct (Qle_bool 70 score) eqn:E70; [|destruct (Qle_bool 50 score) eqn:E50].
  - apply Qle_bool_iff in E70.
    repeat split; try easy; try discriminate; intros; exfalso; lra.
  - apply Qle_bool_iff in E50.
    apply not_true_iff_false in E70. rewrite Qle_bool_iff in E70.
    apply Qnot_le_lt in E70.
    repeat split; try easy; try discriminate; intros; exfalso; lra.
  - apply not_true_iff_false in E70, E50. rewrite Qle_bool_iff in E70, E50.
    apply Qnot_le_lt in E70, E50.
    repeat split; try easy; try discriminate; intros; exfalso; lra.
Qed.

Lemma round1_ge (x : Q) (z : Z) :
  inject_Z z <= x * 10 -> inject_Z z / 10 <= Py.round x 1.
Proof.
  intros H. unfold Py.round. change (inject_Z (10 ^ Z.of_nat 1)) with 10.
  pose proof (round_half_even_bounds (x * 10)) as [B _].
  assert (F : (z <= Qfloor (x * 10))%Z).
  { rewrite <- (Qfloor_Z z). now apply Qfloor_resp_le. }
  assert (G : inject_Z z <= inject_Z (Py.round_half_even (x * 10))).
  { rewrite <- Zle_Qle. lia. }
  apply Qle_shift_div_l; [easy|].
  unfold Qdiv. rewrite <- Qmult_assoc.
  setoid_replace (/ 10 * 10) with 1 by reflexivity.
  now rewrite Qmult_1_r.
Qed.

Lemma round1_le (x : Q) (z : Z) :
  x * 10 <= inject_Z z -> Py.round x 1 <= inject_Z z / 10.
Proof.
  intros H. unfold Py.round. change (inject_Z (10 ^ Z.of_nat 1)) with 10.
  destruct (Qlt_le_dec (x * 10) (inject_Z z)) as [L|L].
  - pose proof (round_half_even_bounds (x * 10)) as [_ B].
    assert (F : (Qfloor (x * 10) < z)%Z).
    { apply Z.nle_gt. intros N. apply (Qlt_not_le _ _ L).
      apply Qle_trans with (inject_Z (Qfloor (x * 10))); [|apply Qfloor_le].
      now rewrite <- Zle_Qle. }
    assert (G : inject_Z (Py.round_half_even (x * 10)) <= inject_Z z).
    { rewrite <- Zle_Qle. lia. }
    apply Qle_shift_div_r; [easy|].
    unfold Qdiv. rewrite <- Qmult_assoc.
    setoid_replace (/ 10 * 10) with 1 by reflexivity.
    now rewrite Qmult_1_r.
  - assert (E : x * 10 == inject_Z z) by now apply Qle_antisym.
    rewrite (round_half_even_comp _ _ E), round_half_even_integer.
    apply Qle_refl.
Qed.

Lemma status_of_rounded (raw : Q) :
  (status_of raw = "excellent" -> 70 <= Py.round raw 1)
  /\ (status_of raw = "good"
      -> 50 <= Py.round raw 1 /\ Py.round raw 1 <= 70)
  /\ (status_of raw = "fair" -> Py.round raw 1 <= 50).
Proof.
  destruct (status_of_tiers raw) as (Tx & Tg & Tf).
  assert (E700 : inject_Z 700 / 10 == 70) by reflexivity.
  assert (E500 : inject_Z 500 / 10 == 50) by reflexivity.
  split; [|split].
  - intros H. apply Tx in H. rewrite <- E700.
    apply round1_ge. change (inject_Z 700) with 700. lra.
  - intros H. apply Tg in H. split.
    + rewrite <- E500.
      apply round1_ge. change (inject_Z 500) with 500. lra.
    + rewrite <- E700.
      apply round1_le. change (inject_Z 700) with 700. lra.
  - intros H. apply Tf in H. rewrite <- E500.
    apply round1_le. change (inject_Z 500) with 500. lra.
Qed.

(** C2 (as amended).  The status tier of every match of a run is decided by
    the aggregate before rounding: "excellent" exactly when it is at least
    70, "good" exactly when it is at least 50 and below 70, "fair" exactly
    when it is below 50.  The stored score is that aggregate rounded to one
    decimal, so an excellent match stores at least 70.0, a good match
    between 50.0 and 70.0, and a fair match at most 50.0. *)
Theorem status_from_unrounded_score (self : PMInternshipSystem.t) :
  Forall (fun m =>
            exists c i ts,
              In c (InternshipDatabase.candidates (db self))
              /\ In i (InternshipDatabase.internships (db self))
              /\ m = make_match c i ts
              /\ Match.score m
                 = Py.round (fst (calculate_match_score c i)) 1
              /\ (Match.status m = "excellent"
                  <-> 70 <= fst (calculate_match_score c i))
              /\ (Match.status m = "good"
                  <-> 50 <= fst (calculate_match_score c i)
                      /\ fst (calculate_match_score c i) < 70)
              /\ (Match.status m = "fair"
                  <-> fst (calculate_match_score c i) < 50)
              /\ (Match.status m = "excellent" -> 70 <= Match.score m)
              /\ (Match.status m = "good"
                  -> 50 <= Match.score m /\ Match.score m <= 70)
              /\ (Match.status m = "fair" -> Match.score m <= 50))
         (fst (run_matching_algorithm self)).
Proof.
  eapply Forall_impl; [|apply run_matches_origin].
  intros m (c & i & ts & Hc & Hi & ->).
  exists c, i, ts.
  destruct (make_match_fields c i ts) as (Es & Et & _).
  destruct (status_of_tiers (fst (calculate_match_score c i)))
    as (Tx & Tg & Tf).
  destruct (status_of_rounded (fst (calculate_match_score c i)))
    as (Rx & Rg & Rf).
  rewrite Es, Et.
  split; [exact Hc|]. split; [exact Hi|]. split; [reflexivity|].
  split; [reflexivity|]. split; [exact Tx|]. split; [exact Tg|].
  split; [exact Tf|]. split; [exact Rx|]. split; [exact Rg|exact Rf].
Qed.

Lemma status_from_unrounded_score_witness :
  Match.score (make_match Cases.borderline_candidate
                          Cases.borderline_internship 0) <= 70.
Proof.
  destruct (proj1 (Forall_forall _ _)
                  (status_from_unrounded_score Cases.borderline_system)
                  (make_match Cases.borderline_candidate
                              Cases.borderline_internship 0))
    as (c & i & ts & _ & _ & _ & _ & _ & _ & _ & _ & G & _).
  - left; reflexivity.
  - apply G. reflexivity.
Defined.

(** C2, counterexample.  The run over the borderline pair stores the score
    70.0 (the aggregate is 69.975) with status "good": the status is not
    "excellent" although the stored score is at least 70.0. *)
Lemma status_not_from_rounded_score :
  ~ (forall (self : PMInternshipSystem.t) (m : Match.t),
        In m (fst (run_matching_algorithm self)) ->
        (Match.status m = "excellent" <-> 70 <= Match.score m)).
Proof.
  intros H.
  pose (m := make_match Cases.borderline_candidate
                        Cases.borderline_internship 0).
  assert (Hin : In m (fst (run_matching_algorithm Cases.borderline_system)))
    by (left; reflexivity).
  apply H in Hin. destruct Hin as [_ Hex].
  assert (Hs : 70 <= Match.score m) by (vm_compute; discriminate).
  apply Hex in Hs. vm_compute in Hs. discriminate.
Qed.

(* ================================================================= *)
(** ** Ranking of a run *)

Lemma sort_reverse_stable_ranking (ms : list Match.t) :
  Spec.stable_ranking ms (Py.sort_reverse Match.score ms).
Proof.
  split; [apply sort_reverse_sorted | intros q; apply sort_reverse_keyed].
Qed.

(** The stable ranking of a list is unique, so it is the list that any
    stable sort by decreasing score returns. *)
Lemma stable_ranking_unique (ms r1 r2 : list Match.t) :
  Spec.stable_ranking ms r1 -> Spec.stable_ranking ms r2 -> r1 = r2.
Proof.
  intros [S1 K1] [S2 K2].
  apply (stable_sorted_unique Match.score); [assumption|assumption|].
  intros q. unfold Spec.tied in *. now rewrite K1, K2.
Qed.

Lemma top3_kept (scored : list (list Match.t)) :
  Forall2 (fun ms kept =>
             exists r, Spec.stable_ranking ms r /\ kept = firstn 3 r)
          scored (map Trace.top3 scored).
Proof.
  induction scored as [|ms scored IH]; simpl; constructor; [|exact IH].
  exists (Py.sort_reverse Match.score ms).
  split; [apply sort_reverse_stable_ranking | reflexivity].
Qed.

Lemma top3_length (ms : list Match.t) :
  List.length (Trace.top3 ms) = Nat.min 3 (List.length ms).
Proof.
  unfold Trace.top3. now rewrite length_firstn, sort_reverse_length.
Qed.

(** C4.  A run scores every candidate against every internship, in
    iteration order; per candidate it ranks the matches by decreasing score
    with ties left in internship order and keeps the first three at most;
    the list it returns is the concatenation of the kept matches ranked by
    decreasing score, matches of equal score keeping their relative
    order. *)
Theorem run_ranking (self : PMInternshipSystem.t) :
  exists scored kept : list (list Match.t),
    Forall2 (fun c ms =>
               Forall2 (fun i m => exists ts, m = make_match c i ts)
                       (InternshipDatabase.internships (db self)) ms)
            (InternshipDatabase.candidates (db self)) scored
    /\ Forall2 (fun ms k =>
                  exists r, Spec.stable_ranking ms r /\ k = firstn 3 r)
               scored kept
    /\ Forall (fun k => (List.length k <= 3)%nat) kept
    /\ Spec.stable_ranking (List.concat kept)
                           (fst (run_matching_algorithm self)).
Proof.
  exists (Trace.per_candidate (now self)
            (InternshipDatabase.internships (db self))
            (InternshipDatabase.candidates (db self)) (ticks self)).
  eexists. split; [apply per_candidate_pairs|].
  split; [apply top3_kept|]. split.
  - apply Forall_forall. intros k Hk.
    apply in_map_iff in Hk as (ms & <- & _).
    rewrite top3_length. apply Nat.le_min_l.
  - rewrite run_unfold. cbv zeta. simpl fst.
    apply sort_reverse_stable_ranking.
Qed.

(* ================================================================= *)
(** ** Malformed records *)

Lemma scored_length (now : nat -> Z) (c : Candidate.t)
      (ins : list Internship.t) (k : nat) :
  List.length (Trace.scored now c ins k) = List.length ins.
Proof.
  revert k; induction ins as [|i ins IH]; intros k; simpl; auto.
Qed.

Lemma kept_length (now : nat -> Z) (ins : list Internship.t)
      (cs : list Candidate.t) (k : nat) :
  List.length (List.concat (map Trace.top3 (Trace.per_candidate now ins cs k)))
  = (List.length cs * Nat.min 3 (List.length ins))%nat.
Proof.
  revert k; induction cs as [|c cs IH]; intros k; simpl; [reflexivity|].
  rewrite length_app, top3_length, scored_length, IH. reflexivity.
Qed.

(** C8 (as amended).  A run checks no record: for every snapshot, with or
    without malformed records, it completes, ranks three matches at most
    per candidate (the number of candidates times the smaller of 3 and the
    number of internships), and stores exactly the list it returns, leaving
    the candidates and internships as they were. *)
Theorem run_never_rejects (self : PMInternshipSystem.t) :
  let ranking := fst (run_matching_algorithm self) in
  let self' := snd (run_matching_algorithm self) in
  InternshipDatabase.matches (db self') = ranking
  /\ PMInternshipSystem.matches self' = ranking
  /\ InternshipDatabase.candidates (db self')
     = InternshipDatabase.candidates (db self)
  /\ InternshipDatabase.internships (db self')
     = InternshipDatabase.internships (db self)
  /\ List.length ranking
     = (List.length (InternshipDatabase.candidates (db self))
        * Nat.min 3 (List.length (InternshipDatabase.internships (db self))))%nat.
Proof.
  cbv zeta. rewrite run_unfold. cbv zeta. simpl.
  repeat split. now rewrite sort_reverse_length, kept_length.
Qed.

(** C8, counterexample.  The snapshot holds a candidate with academic score
    11 and an internship with negative capacity and stipend; the run
    returns one match and stores it. *)
Lemma malformed_snapshot_is_ranked :
  Spec.malformed_snapshot
    (InternshipDatabase.candidates (db Cases.malformed_system))
    (InternshipDatabase.internships (db Cases.malformed_system)) = true
  /\ Forall (fun c => Spec.malformed_candidate c = true)
            (InternshipDatabase.candidates (db Cases.malformed_system))
  /\ Forall (fun i => Spec.malformed_internship i = true)
            (InternshipDatabase.internships (db Cases.malformed_system))
  /\ List.length (fst (run_matching_algorithm Cases.malformed_system)) = 1%nat
  /\ InternshipDatabase.matches
       (db (snd (run_matching_algorithm Cases.malformed_system)))
     = fst (run_matching_algorithm Cases.malformed_system)
  /\ InternshipDatabase.matches
       (db (snd (run_matching_algorithm Cases.malformed_system))) <> [].
Proof.
  split; [reflexivity|]. split; [repeat constructor|].
  split; [repeat constructor|]. split; [reflexivity|].
  split; [reflexivity|]. discriminate.
Qed.

(* ================================================================= *)
(** ** Repeated runs *)

(** C9.  Two runs over the same candidates and internships return the same
    ranked list up to the timestamps of the matches: the second of two
    consecutive runs repeats the first, and so does a run from any other
    clock, stored matches or earlier result. *)
Theorem rerun_same_ranking :
  (forall self : PMInternshipSystem.t,
      map Spec.untimed
          (fst (run_matching_algorithm (snd (run_matching_algorithm self))))
      = map Spec.untimed (fst (run_matching_algorithm self)))
  /\ (forall (cs : list Candidate.t) (ins : list Internship.t)
             (table table' earlier earlier' : list Match.t)
             (now now' : nat -> Z) (k k' : nat),
         map Spec.untimed
             (fst (run_matching_algorithm
                     (mk (InternshipDatabase.mk cs ins table) earlier now k)))
         = map Spec.untimed
               (fst (run_matching_algorithm
                       (mk (InternshipDatabase.mk cs ins table') earlier'
                           now' k')))).
Proof.
  split.
  - intros self. rewrite !untimed_run.
    rewrite (run_unfold self). reflexivity.
  - intros. now rewrite !untimed_run.
Qed.

(* ================================================================= *)
(** ** Further properties of the scorers *)

Lemma contribution_le_1 (cands : list string) (req : string) :
  Spec.contribution cands req <= 1.
Proof.
  unfold Spec.contribution. destruct (find _ _); [apply credit_unit|easy].
Qed.

Lemma Qsum_le_count (l : list Q) :
  Forall (fun x => x <= 1) l ->
  Spec.Qsum l <= inject_Z (Z.of_nat (List.length l)).
Proof.
  induction 1 as [|x l Hx _ IH]; [easy|].
  cbn [Spec.Qsum List.length]. rewrite Nat2Z.inj_succ, <- Z.add_1_l.
  rewrite inject_Z_plus. change (inject_Z 1) with 1. lra.
Qed.

Lemma Qsum_full_iff (l : list Q) :
  Forall (fun x => x <= 1) l ->
  (inject_Z (Z.of_nat (List.length l)) <= Spec.Qsum l
   <-> Forall (fun x => x == 1) l).
Proof.
  induction 1 as [|x l Hx Hl IH]; [split; [constructor|easy]|].
  cbn [Spec.Qsum List.length]. rewrite Nat2Z.inj_succ, <- Z.add_1_l.
  rewrite inject_Z_plus. change (inject_Z 1) with 1.
  pose proof (Qsum_le_count l Hl) as B.
  split.
  - intros H. constructor; [lra|]. apply IH. lra.
  - intros H. inversion H as [|? ? E1 El]; subst.
    apply IH in El. lra.
Qed.

Lemma count_positive {A : Type} (a : A) (l : list A) :
  0 < inject_Z (Z.of_nat (List.length (a :: l))).
Proof.
  change 0 with (inject_Z 0). rewrite <- Zlt_Qlt. simpl List.length. lia.
Qed.

(** X1.  In the skills scorer the running total lies between 0 and the
    number of required skills, so the cap [min(..., 1.0)] never lowers the
    ratio: the skills sub-score is the total over the count. *)
Theorem skills_cap_never_cuts (cand req : string) (cands reqs : list string) :
  let matches :=
    fold_left (fun matches req_skill =>
                 scan_candidate_skills req_skill (cand :: cands) matches)
              (req :: reqs) 0 in
  let total_required := inject_Z (Z.of_nat (List.length (req :: reqs))) in
  0 <= matches /\ matches <= total_required
  /\ calculate_skills_match (cand :: cands) (req :: reqs)
     == matches / total_required.
Proof.
  cbv zeta.
  assert (Hlo : 0 <= Spec.Qsum (map (Spec.contribution (cand :: cands))
                                    (req :: reqs))).
  { apply Qsum_nonneg, Forall_forall. intros x Hx.
    apply in_map_iff in Hx as (r & <- & _). apply contribution_nonneg. }
  assert (Hhi : Spec.Qsum (map (Spec.contribution (cand :: cands))
                               (req :: reqs))
                <= inject_Z (Z.of_nat (List.length (req :: reqs)))).
  { rewrite <- (length_map (Spec.contribution (cand :: cands)) (req :: reqs)).
    apply Qsum_le_count, Forall_forall. intros x Hx.
    apply in_map_iff in Hx as (r & <- & _). apply contribution_le_1. }
  pose proof (count_positive req reqs) as Hn.
  rewrite skills_match_sum, fold_scan, Qplus_0_l.
  split; [exact Hlo|]. split; [exact Hhi|].
  apply Q.min_l. apply Qle_shift_div_r; [exact Hn|]. now rewrite Qmult_1_l.
Qed.

Lemma credit_full_iff (r : Spec.relatedness) :
  Spec.credit r == 1 <-> r = Spec.EXACT.
Proof. destruct r; split; easy. Qed.

Lemma contribution_full_iff (cands : list string) (req : string) :
  Spec.contribution cands req == 1 <-> Vocabulary.first_related_exact cands req.
Proof.
  unfold Spec.contribution, Vocabulary.first_related_exact.
  destruct (find (Spec.related req) cands) as [cand|].
  - rewrite credit_full_iff. split.
    + intros H. now exists cand.
    + now intros (cand' & [= <-] & H).
  - split; [easy|]. now intros (cand' & [=] & _).
Qed.

(** X2.  The skills sub-score is 1.0 exactly when both lists are non-empty
    and, for every required skill, the first candidate skill related to it
    is a case-insensitive exact match (an earlier substring or same-group
    skill keeps the score below 1.0 even when an exact match follows). *)
Theorem skills_full_score_iff (cands reqs : list string) :
  calculate_skills_match cands reqs == 1
  <-> cands <> [] /\ reqs <> []
      /\ Forall (Vocabulary.first_related_exact cands) reqs.
Proof.
  destruct cands as [|cand cands].
  { split; [intros H; vm_compute in H; discriminate | now intros ([] & _)]. }
  destruct reqs as [|req reqs].
  { split; [intros H; vm_compute in H; discriminate
           | now intros (_ & [] & _)]. }
  rewrite skills_match_sum.
  set (cs := cand :: cands). set (rs := req :: reqs).
  pose proof (count_positive req reqs) as Hn. fold rs in Hn.
  assert (Hle : Forall (fun x => x <= 1) (map (Spec.contribution cs) rs)).
  { apply Forall_forall. intros x Hx.
    apply in_map_iff in Hx as (r & <- & _). apply contribution_le_1. }
  pose proof (Qsum_full_iff _ Hle) as Hfull.
  pose proof (Qsum_le_count _ Hle) as Hcount.
  rewrite length_map in Hfull, Hcount.
  assert (Hall : Forall (fun x => x == 1) (map (Spec.contribution cs) rs)
                 <-> Forall (Vocabulary.first_related_exact cs) rs).
  { rewrite Forall_map. split; apply Forall_impl; intros r;
      apply contribution_full_iff. }
  rewrite <- Hall, <- Hfull.
  set (S := Spec.Qsum (map (Spec.contribution cs) rs)) in *.
  set (n := inject_Z (Z.of_nat (List.length rs))) in *.
  split.
  - intros H. split; [easy|]. split; [easy|].
    assert (H1 : 1 <= S / n).
    { rewrite <- H. apply Q.le_min_l. }
    assert (Hnz : ~ n == 0).
    { intros Z0. rewrite Z0 in Hn. now apply Qlt_irrefl in Hn. }
    assert (ES : S == S / n * n) by (field; exact Hnz).
    rewrite ES, <- (Qmult_1_l n) at 1.
    apply Qmult_le_compat_r; [exact H1 | now apply Qlt_le_weak].
  - intros (_ & _ & H).
    assert (E : S / n == 1).
    { assert (ES : S == n) by now apply Qle_antisym.
      rewrite ES. field. intros Z0. rewrite Z0 in Hn. now apply Qlt_irrefl in Hn. }
    rewrite E. reflexivity.
Qed.

Lemma skills_full_score_iff_witness :
  calculate_skills_match ["Python"; "SQL"] ["sql"; "PYTHON"] == 1.
Proof.
  refine (proj2 (skills_full_score_iff ["Python"; "SQL"] ["sql"; "PYTHON"]) _).
  split; [discriminate|]. split; [discriminate|].
  constructor; [exists "SQL"; split; reflexivity|].
  constructor; [exists "Python"; split; reflexivity|constructor].
Defined.






Lemma similar_in_sym (groups : list (string * list string)) (a b : string) :
  similar_in groups a b = similar_in groups b a.
Proof.
  induction groups as [|[k g] groups IH]; simpl; [reflexivity|].
  now rewrite IH, andb_comm.
Qed.

(** X4.  Skill relatedness does not depend on which label is the required
    one: [_are_similar_skills] is symmetric, and a required skill scanned
    against one candidate skill adds what the swapped pair adds. *)
Theorem skill_relation_symmetric (a b : string) (matches : Q) :
  _are_similar_skills a b = _are_similar_skills b a
  /\ scan_candidate_skills a [b] matches = scan_candidate_skills b [a] matches.
Proof.
  assert (S : _are_similar_skills a b = _are_similar_skills b a)
    by apply similar_in_sym.
  split; [exact S|]. simpl.
  rewrite S, (String.eqb_sym (Py.lower a) (Py.lower b)).
  now rewrite (orb_comm (Py.contains (Py.lower a) (Py.lower b))).
Qed.

(** X5.  The location sub-score is symmetric: swapping the candidate's and
    the internship's location leaves it unchanged. *)
Theorem location_score_symmetric (a b : string) :
  calculate_location_score a b = calculate_location_score b a.
Proof.
  unfold calculate_location_score.
  rewrite (String.eqb_sym (Py.lower a) (Py.lower b)).
  destruct (String.eqb _ _); [reflexivity|].
  destruct (Py.get state_mapping (Py.lower a)) as [x|],
           (Py.get state_mapping (Py.lower b)) as [y|]; try reflexivity.
  rewrite (String.eqb_sym x y).
  now destruct (Py.truthy x), (Py.truthy y).
Qed.

(** *** Letter case *)

Lemma lower_char_idem (c : ascii) :
  Py.lower_char (Py.lower_char c) = Py.lower_char c.
Proof.
  destruct c as [b0 b1 b2 b3 b4 b5 b6 b7].
  destruct b0, b1, b2, b3, b4, b5, b6, b7; reflexivity.
Qed.

Lemma lower_idem (s : string) : Py.lower (Py.lower s) = Py.lower s.
Proof.
  induction s as [|c s IH]; simpl; [reflexivity|].
  now rewrite lower_char_idem, IH.
Qed.

Lemma scan_lower (req : string) (cands : list string) (matches : Q) :
  scan_candidate_skills (Py.lower req) (map Py.lower cands) matches
  = scan_candidate_skills req cands matches.
Proof.
  induction cands as [|cand cands IH]; simpl; [reflexivity|].
  unfold _are_similar_skills. rewrite !lower_idem, IH. reflexivity.
Qed.

Lemma fold_scan_lower (cands reqs : list string) (matches : Q) :
  fold_left (fun matches req_skill =>
               scan_candidate_skills req_skill (map Py.lower cands) matches)
            (map Py.lower reqs) matches
  = fold_left (fun matches req_skill =>
                 scan_candidate_skills req_skill cands matches)
              reqs matches.
Proof.
  revert matches; induction reqs as [|r reqs IH]; intros matches; simpl;
    [reflexivity|].
  now rewrite scan_lower, IH.
Qed.

Lemma skills_match_lower (cands reqs : list string) :
  calculate_skills_match (map Py.lower cands) (map Py.lower reqs)
  = calculate_skills_match cands reqs.
Proof.
  destruct cands as [|c cands]; [reflexivity|].
  destruct reqs as [|r reqs]; [reflexivity|].
  unfold calculate_skills_match.
  change (map Py.lower (c :: cands)) with (Py.lower c :: map Py.lower cands).
  change (map Py.lower (r :: reqs)) with (Py.lower r :: map Py.lower reqs).
  cbv iota beta.
  change (Py.lower c :: map Py.lower cands) with (map Py.lower (c :: cands)).
  change (Py.lower r :: map Py.lower reqs) with (map Py.lower (r :: reqs)).
  now rewrite fold_scan_lower, length_map.
Qed.

Lemma location_score_lower (a b : string) :
  calculate_location_score (Py.lower a) (Py.lower b)
  = calculate_location_score a b.
Proof. unfold calculate_location_score. now rewrite !lower_idem. Qed.

Lemma diversity_score_lower (c : Candidate.t) :
  calculate_diversity_score (Vocabulary.lower_candidate c)
  = calculate_diversity_score c.
Proof.
  unfold calculate_diversity_score. simpl Candidate.district.
  simpl Candidate.category. simpl Candidate.past_participation.
  now rewrite lower_idem.
Qed.

(** X6.  The match scorer reads skills, required skills, locations,
    sectors, qualification texts and the district only through their
    lower-case form: putting all of them in lower case changes neither the
    aggregate nor any entry of the factor breakdown.  (The category is
    compared as written.) *)
Theorem match_score_ignores_case (c : Candidate.t) (i : Internship.t) :
  calculate_match_score (Vocabulary.lower_candidate c)
                        (Vocabulary.lower_internship i)
  = calculate_match_score c i.
Proof.
  unfold calculate_match_score.
  rewrite diversity_score_lower.
  unfold sector_score, qual_score, academic_score.
  simpl Candidate.skills. simpl Internship.required_skills.
  simpl Candidate.location. simpl Internship.location.
  simpl Candidate.sector. simpl Internship.sector.
  simpl Candidate.qualifications. simpl Internship.preferred_qualification.
  simpl Candidate.cgpa.
  now rewrite skills_match_lower, location_score_lower, !lower_idem.
Qed.

(** *** Floor of the aggregate *)

Lemma location_score_floor (a b : string) :
  0.3 <= calculate_location_score a b.
Proof.
  unfold calculate_location_score.
  destruct (String.eqb _ _); [easy|].
  destruct (Py.get _ _); [destruct (Py.get _ _)|]; try easy.
  destruct (_ && _ && _)%bool; easy.
Qed.

Lemma sector_score_floor (c : Candidate.t) (i : Internship.t) :
  0.3 <= sector_score c i.
Proof. unfold sector_score. destruct (String.eqb _ _); easy. Qed.

Lemma qual_score_floor (c : Candidate.t) (i : Internship.t) :
  0.5 <= qual_score c i.
Proof. unfold qual_score. destruct (Py.any _ _); easy. Qed.

(** X7.  For a candidate with a non-negative academic score, no pair scores
    below 15.5: the location and sector sub-scores are at least 0.3 and the
    qualification sub-score at least 0.5, which the weights turn into
    6 + 4.5 + 5 points; the stored one-decimal score is at least 15.5 as
    well. *)
Theorem match_score_floor (c : Candidate.t) (i : Internship.t) :
  0 <= Candidate.cgpa c ->
  15.5 <= fst (calculate_match_score c i)
  /\ (forall ts, 15.5 <= Match.score (make_match c i ts)).
Proof.
  intros Hc.
  assert (B : 15.5 <= fst (calculate_match_score c i)).
  { rewrite match_score_value. apply Q.min_glb; [|easy].
    pose proof (skills_match_unit (Candidate.skills c)
                                  (Internship.required_skills i)) as [? _].
    pose proof (location_score_floor (Candidate.location c)
                                     (Internship.location i)).
    pose proof (sector_score_floor c i).
    pose proof (qual_score_floor c i).
    pose proof (diversity_score_unit c) as [? _].
    pose proof (academic_score_nonneg c Hc).
    unfold Spec.weighted_sum. lra. }
  split; [exact B|]. intros ts.
  destruct (make_match_fields c i ts) as (-> & _).
  generalize dependent (fst (calculate_match_score c i)). intros raw B.
  assert (E : inject_Z 155 / 10 == 15.5) by reflexivity.
  rewrite <- E. apply round1_ge. change (inject_Z 155) with 155. lra.
Qed.

Lemma match_score_floor_witness :
  15.5 <= fst (calculate_match_score Cases.borderline_candidate
                                     Cases.borderline_internship)
  /\ (forall ts,
         15.5 <= Match.score (make_match Cases.borderline_candidate
                                         Cases.borderline_internship ts)).
Proof.
  refine (match_score_floor Cases.borderline_candidate
                            Cases.borderline_internship _).
  vm_compute; discriminate.
Defined.

(** *** Substrings *)

Lemma string_app_assoc (a b c : string) :
  ((a ++ b) ++ c)%string = (a ++ b ++ c)%string.
Proof. induction a as [|x a IH]; simpl; [reflexivity|now rewrite IH]. Qed.

Lemma prefix_iff (a b : string) :
  prefix a b = true <-> exists s, b = (a ++ s)%string.
Proof.
  revert b; induction a as [|x a IH]; intros b.
  - destruct b; simpl; split; eauto.
  - destruct b as [|y b]; simpl.
    + split; [easy|]. now intros (s & [=]).
    + destruct (ascii_dec x y) as [<-|N].
      * rewrite IH. split; intros (s & E); exists s; [now rewrite E|].
        now injection E.
      * split; [easy|]. intros (s & [= E _]). now destruct N.
Qed.

Lemma contains_nil (a : string) :
  Py.contains a "" = (prefix a "" || false)%bool.
Proof. reflexivity. Qed.

Lemma contains_cons (a : string) (y : ascii) (b : string) :
  Py.contains a (String y b)
  = (prefix a (String y b) || Py.contains a b)%bool.
Proof. reflexivity. Qed.

Lemma contains_iff (a b : string) :
  Py.contains a b = true <-> exists p s, b = (p ++ a ++ s)%string.
Proof.
  split.
  - induction b as [|y b IH].
    + rewrite contains_nil, orb_true_iff.
      intros [H|H]; [|easy]. apply prefix_iff in H as (s & E).
      now exists "", s.
    + rewrite contains_cons, orb_true_iff. intros [H|H].
      * apply prefix_iff in H as (s & E). now exists "", s.
      * destruct (IH H) as (p & s & E). exists (String y p), s.
        simpl. now rewrite E.
  - intros (p & s & ->). induction p as [|y p IH].
    + change ("" ++ a ++ s)%string with (a ++ s)%string.
      assert (P : prefix a (a ++ s) = true) by (apply prefix_iff; now exists s).
      destruct (a ++ s)%string;
        [rewrite contains_nil | rewrite contains_cons]; now rewrite P.
    + change (String y p ++ a ++ s)%string
        with (String y (p ++ a ++ s))%string.
      rewrite contains_cons, IH. apply orb_true_r.
Qed.

Lemma contains_trans (a b c : string) :
  Py.contains a b = true -> Py.contains b c = true ->
  Py.contains a c = true.
Proof.
  rewrite !contains_iff. intros (p1 & s1 & ->) (p2 & s2 & ->).
  exists (p2 ++ p1)%string, (s1 ++ s2)%string.
  now rewrite !string_app_assoc.
Qed.

(** X8.  A district that contains "Rural Karnataka" (in any letter case)
    earns both the aspirational-district bonus and the rural bonus, because
    that list entry itself contains "rural": the diversity sub-score is the
    category bonus plus 0.5 plus the first-time bonus, capped at 1.0. *)
Theorem rural_karnataka_double_bonus (c : Candidate.t) :
  Spec.ci_substring "Rural Karnataka" (Candidate.district c) = true ->
  calculate_diversity_score c
  == Qmin (Spec.category_bonus c + 0.5 + Spec.first_time_bonus c) 1
  /\ 0.5 <= calculate_diversity_score c.
Proof.
  intros H.
  assert (Hd : Spec.in_aspirational_district c = true).
  { unfold Spec.in_aspirational_district. apply existsb_exists.
    exists "Rural Karnataka". split; [simpl; tauto | exact H]. }
  assert (Hr : Spec.ci_substring "rural" (Candidate.district c) = true).
  { unfold Spec.ci_substring in *.
    apply (contains_trans _ (Py.lower "Rural Karnataka")); [reflexivity|easy]. }
  rewrite diversity_score_bonuses.
  unfold Spec.district_bonus, Spec.rural_bonus. rewrite Hd, Hr.
  assert (E : Spec.category_bonus c + 0.3 + 0.2 + Spec.first_time_bonus c
              == Spec.category_bonus c + 0.5 + Spec.first_time_bonus c)
    by ring.
  rewrite E. split; [reflexivity|].
  apply Q.min_glb; [|easy].
  unfold Spec.category_bonus, Spec.first_time_bonus.
  destruct (_ || _)%bool; [|destruct (String.eqb _ "OBC")];
    destruct (Candidate.past_participation c); easy.
Qed.

Lemma rural_karnataka_double_bonus_witness :
  calculate_diversity_score (nth 3 Sample.candidates Cases.negative_cgpa)
  == Qmin (Spec.category_bonus (nth 3 Sample.candidates Cases.negative_cgpa)
           + 0.5
           + Spec.first_time_bonus
               (nth 3 Sample.candidates Cases.negative_cgpa)) 1
  /\ 0.5 <= calculate_diversity_score
              (nth 3 Sample.candidates Cases.negative_cgpa).
Proof.
  refine (rural_karnataka_double_bonus
            (nth 3 Sample.candidates Cases.negative_cgpa) _).
  reflexivity.
Defined.

(** *** Tokens of the preferred qualification *)

Lemma split_from_nonempty (cur s : string) :
  Forall (fun w => w <> "") (Py.split_from cur s).
Proof.
  revert cur; induction s as [|c s IH]; intros cur; simpl.
  - destruct (String.eqb_spec cur ""); repeat constructor; assumption.
  - destruct (Py.is_space c); [|apply IH].
    destruct (String.eqb_spec cur ""); [apply IH|].
    constructor; [assumption|apply IH].
Qed.

Lemma contains_in_empty (w : string) : w <> "" -> Py.contains w "" = false.
Proof. destruct w; [easy|reflexivity]. Qed.

(** X9.  A candidate whose qualification text is empty scores 0.5 on
    qualification against every internship: the tokens that [split] yields
    are never empty, and a non-empty token is not a substring of the empty
    text. *)
Theorem qual_score_without_qualification (c : Candidate.t) (i : Internship.t) :
  Candidate.qualifications c = "" -> qual_score c i == 0.5.
Proof.
  intros H. unfold qual_score. rewrite H. change (Py.lower "") with "".
  replace (Py.any _ _) with false; [reflexivity|].
  symmetry. unfold Py.any, Py.split.
  pose proof (split_from_nonempty
                "" (Py.lower (Internship.preferred_qualification i))) as F.
  induction F as [|w ws Hw _ IH]; cbn [existsb]; [reflexivity|].
  now rewrite (contains_in_empty w Hw).
Qed.

Lemma qual_score_without_qualification_witness :
  qual_score
    (Candidate.mk 4 "Dev" ["SQL"] "" "Pune" "Finance" "General" "Pune" true
                  6 "Fresher" "" "")
    Cases.borderline_internship == 0.5.
Proof.
  refine (qual_score_without_qualification _ Cases.borderline_internship _).
  reflexivity.
Defined.

(* ================================================================= *)
(** ** Further properties of a run *)

Lemma make_match_factors (c : Candidate.t) (i : Internship.t) (ts : Z) :
  Match.factors (make_match c i ts) = snd (calculate_match_score c i).
Proof. unfold make_match. now destruct (calculate_match_score c i). Qed.

Lemma status_of_cases (score : Q) :
  In (status_of score) ["excellent"; "good"; "fair"].
Proof.
  unfold status_of. destruct (Qle_bool 70 score); [simpl; tauto|].
  destruct (Qle_bool 50 score); simpl; tauto.
Qed.

Lemma run_matches_resolvable (self : PMInternshipSystem.t) :
  Forall (Vocabulary.resolvable (InternshipDatabase.candidates (db self))
                                (InternshipDatabase.internships (db self)))
         (fst (run_matching_algorithm self)).
Proof.
  eapply Forall_impl; [|apply run_matches_origin].
  intros m (c & i & ts & Hc & Hi & ->).
  destruct (make_match_fields c i ts) as (_ & Et & Ec & Ei).
  split; [now exists c|]. split; [now exists i|].
  split; [rewrite Et; apply status_of_cases|].
  now rewrite make_match_factors.
Qed.

(** X10.  Every match of a run refers to a candidate and an internship of
    the tables it was computed from, carries one of the three status names,
    and has a factor breakdown with exactly the six factor names, in the
    order skills, location, sector, qualification, diversity, academic. *)
Theorem run_matches_well_formed (self : PMInternshipSystem.t) :
  Forall (fun m =>
            (exists c, In c (InternshipDatabase.candidates (db self))
                       /\ Match.candidate_id m = Candidate.id c)
            /\ (exists i, In i (InternshipDatabase.internships (db self))
                          /\ Match.internship_id m = Internship.id i)
            /\ In (Match.status m) ["excellent"; "good"; "fair"]
            /\ map fst (Match.factors m)
               = ["skills"; "location"; "sector"; "qualification";
                  "diversity"; "academic"])
         (fst (run_matching_algorithm self)).
Proof. exact (run_matches_resolvable self). Qed.

(** *** Matches per candidate *)

Lemma scored_candidate_id (now : nat -> Z) (c : Candidate.t)
      (ins : list Internship.t) (k : nat) :
  Forall (fun m => Match.candidate_id m = Candidate.id c)
         (Trace.scored now c ins k).
Proof.
  revert k; induction ins as [|i ins IH]; intros k; simpl; constructor;
    [apply make_match_fields | apply IH].
Qed.

Lemma top3_candidate_id (now : nat -> Z) (c : Candidate.t)
      (ins : list Internship.t) (k : nat) :
  Forall (fun m => Match.candidate_id m = Candidate.id c)
         (Trace.top3 (Trace.scored now c ins k)).
Proof.
  apply Forall_forall. intros m Hm. apply top3_incl in Hm.
  exact (proj1 (Forall_forall _ _) (scored_candidate_id now c ins k) m Hm).
Qed.









(** *** The best pair *)










(* ================================================================= *)
(** ** Display and export *)


Lemma lookup_found {R : Type} (key : R -> Z) (rows : list R) (k : Z) :
  (exists r, In r rows /\ key r = k) ->
  exists r, Reports.lookup key rows k = Some r.
Proof.
  induction rows as [|r0 rows IH]; simpl; [now intros (r & [] & _)|].
  intros (r & [<-|Hr] & Hk).
  - destruct (Reports.lookup key rows k); [eauto|].
    rewrite Hk, Z.eqb_refl. eauto.
  - destruct (IH (ex_intro _ r (conj Hr Hk))) as (r' & ->). eauto.
Qed.



Lemma status_emoji_found (s : string) :
  In s ["excellent"; "good"; "fair"] ->
  exists e, Py.get Reports.status_emoji s = Some e.
Proof.
  simpl. intros [<-|[<-|[<-|[]]]]; eexists; reflexivity.
Qed.

Lemma firstn_Forall {A : Type} (P : A -> Prop) (n : nat) (l : list A) :
  Forall P l -> Forall P (firstn n l).
Proof.
  rewrite !Forall_forall. intros H a Ha. apply H.
  now apply (firstn_incl n).
Qed.

Lemma slice_to_Forall {A : Type} (P : A -> Prop) (l : list A) (limit : Z) :
  Forall P l -> Forall P (Reports.slice_to l limit).
Proof.
  unfold Reports.slice_to. destruct (0 <=? limit)%Z; apply firstn_Forall.
Qed.

Lemma show_match_resolvable (cs : list Candidate.t) (ins : list Internship.t)
      (k : nat) (m : Match.t) :
  Vocabulary.resolvable cs ins m ->
  exists s,
    Reports.show_match cs ins k m = Some s
    /\ Reports.rank s = k
    /\ Reports.shown_score s = Match.score m
    /\ Reports.breakdown s = Match.factors m.
Proof.
  intros ((c & Hc & Ec) & (i & Hi & Ei) & Hs & _).
  unfold Reports.show_match.
  destruct (lookup_found Candidate.id cs (Match.candidate_id m))
    as (c' & ->); [eauto|].
  destruct (lookup_found Internship.id ins (Match.internship_id m))
    as (i' & ->); [eauto|].
  destruct (status_emoji_found _ Hs) as (e & ->).
  eexists. split; [reflexivity|]. simpl. auto.
Qed.

Lemma show_from_resolvable (cs : list Candidate.t) (ins : list Internship.t)
      (k : nat) (ms : list Match.t) :
  Forall (Vocabulary.resolvable cs ins) ms ->
  exists printed,
    Reports.show_from cs ins k ms = (printed, None)
    /\ map Reports.rank printed = seq k (List.length ms)
    /\ map Reports.shown_score printed = map Match.score ms
    /\ map Reports.breakdown printed = map Match.factors ms.
Proof.
  intros F; revert k; induction F as [|m ms Hm _ IH]; intros k; simpl.
  - exists []. auto.
  - destruct (show_match_resolvable cs ins k m Hm) as (s & -> & Er & Es & Eb).
    destruct (IH (S k)) as (printed & -> & Pr & Ps & Pb).
    exists (s :: printed). simpl. rewrite Er, Es, Eb, Pr, Ps, Pb. auto.
Qed.

Lemma run_state (self : PMInternshipSystem.t) :
  matches (snd (run_matching_algorithm self))
  = fst (run_matching_algorithm self)
  /\ InternshipDatabase.candidates (db (snd (run_matching_algorithm self)))
     = InternshipDatabase.candidates (db self)
  /\ InternshipDatabase.internships (db (snd (run_matching_algorithm self)))
     = InternshipDatabase.internships (db self).
Proof. rewrite run_unfold. cbv zeta. simpl. auto. Qed.

(** X15.  Displaying the top matches right after a run never fails on a
    lookup: it reports that there are no matches exactly when the ranked
    list is empty, and otherwise prints the first [limit] matches of the
    ranking in order, numbered from 1, each with its stored score and
    factor breakdown. *)
Theorem display_after_run (self : PMInternshipSystem.t) (limit : Z) :
  match Reports.display_top_matches (snd (run_matching_algorithm self)) limit
  with
  | Reports.NoMatches => fst (run_matching_algorithm self) = []
  | Reports.Shown printed raised =>
      fst (run_matching_algorithm self) <> []
      /\ raised = None
      /\ map Reports.rank printed
         = seq 1 (List.length
                    (Reports.slice_to (fst (run_matching_algorithm self))
                                      limit))
      /\ map Reports.shown_score printed
         = map Match.score
               (Reports.slice_to (fst (run_matching_algorithm self)) limit)
      /\ map Reports.breakdown printed
         = map Match.factors
               (Reports.slice_to (fst (run_matching_algorithm self)) limit)
  end.
Proof.
  pose proof (run_matches_resolvable self) as F.
  destruct (run_state self) as (Em & Ec & Ei).
  unfold Reports.display_top_matches,
    InternshipDatabase.get_all_candidates,
    InternshipDatabase.get_all_internships.
  rewrite Em, Ec, Ei.
  destruct (fst (run_matching_algorithm self)) as [|m ms] eqn:E;
    [reflexivity|].
  destruct (show_from_resolvable _ _ 1 _ (slice_to_Forall _ _ limit F))
    as (printed & -> & Pr & Ps & Pb).
  repeat split; try assumption. discriminate.
Qed.





Lemma export_row_pair (cs : list Candidate.t) (ins : list Internship.t)
      (c : Candidate.t) (i : Internship.t) (ts : Z) :
  (exists c', In c' cs /\ Candidate.id c' = Candidate.id c) ->
  (exists i', In i' ins /\ Internship.id i' = Internship.id i) ->
  exists c' i',
    Reports.lookup Candidate.id cs (Candidate.id c) = Some c'
    /\ Reports.lookup Internship.id ins (Internship.id i) = Some i'
    /\ Reports.export_row cs ins (make_match c i ts)
       = Some (Reports.mk_row
                 (Candidate.name c') (Candidate.qualifications c')
                 (Candidate.location c') (Candidate.category c')
                 (Internship.company i') (Internship.title i')
                 (Internship.location i') (Internship.stipend i')
                 (Internship.duration i')
                 (Match.score (make_match c i ts))
                 (Match.status (make_match c i ts))
                 (calculate_skills_match (Candidate.skills c)
                                         (Internship.required_skills i) * 100)
                 (calculate_location_score (Candidate.location c)
                                           (Internship.location i) * 100)
                 (sector_score c i * 100)
                 (calculate_diversity_score c * 100)
                 (academic_score c * 100)).
Proof.
  intros Hc Hi.
  destruct (lookup_found Candidate.id cs (Candidate.id c) Hc) as (c' & Lc).
  destruct (lookup_found Internship.id ins (Internship.id i) Hi) as (i' & Li).
  exists c', i'. split; [exact Lc|]. split; [exact Li|].
  destruct (make_match_fields c i ts) as (_ & _ & Ec & Ei).
  unfold Reports.export_row.
  rewrite Ec, Ei, Lc, Li, make_match_factors. reflexivity.
Qed.

Lemma export_rows_pairs (cs : list Candidate.t) (ins : list Internship.t)
      (ms : list Match.t) :
  Forall (fun m => exists c i ts, In c cs /\ In i ins /\ m = make_match c i ts)
         ms ->
  exists rows,
    Reports.export_rows cs ins ms = Some rows
    /\ Forall2
         (fun m r =>
            exists c i ts c' i',
              In c cs /\ In i ins /\ m = make_match c i ts
              /\ Reports.lookup Candidate.id cs (Candidate.id c) = Some c'
              /\ Reports.lookup Internship.id ins (Internship.id i) = Some i'
              /\ r = Reports.mk_row
                       (Candidate.name c') (Candidate.qualifications c')
                       (Candidate.location c') (Candidate.category c')
                       (Internship.company i') (Internship.title i')
                       (Internship.location i') (Internship.stipend i')
                       (Internship.duration i')
                       (Match.score m) (Match.status m)
                       (calculate_skills_match
                          (Candidate.skills c)
                          (Internship.required_skills i) * 100)
                       (calculate_location_score
                          (Candidate.location c) (Internship.location i)
                        * 100)
                       (sector_score c i * 100)
                       (calculate_diversity_score c * 100)
                       (academic_score c * 100))
         ms rows.
Proof.
  induction 1 as [|m ms (c & i & ts & Hc & Hi & ->) _ (rows & Er & IH)];
    simpl.
  - exists []. split; [reflexivity|constructor].
  - destruct (export_row_pair cs ins c i ts) as (c' & i' & Lc & Li & ->);
      [eauto | eauto |].
    rewrite Er. eexists. split; [reflexivity|].
    constructor; [|exact IH].
    exists c, i, ts, c', i'. auto 10.
Qed.

(** X17.  Exporting right after a run never fails on a lookup: nothing is
    exported exactly when the ranked list is empty; otherwise there is one
    row per match, in rank order, whose score and status columns are those
    of the match and whose skills, location, sector, diversity and academic
    columns are 100 times the sub-scores of the pair the match was scored
    from (the qualification sub-score has no column). *)
Theorem export_after_run (self : PMInternshipSystem.t) :
  match Reports.export_results_to_csv (snd (run_matching_algorithm self)) with
  | Reports.NothingToExport => fst (run_matching_algorithm self) = []
  | Reports.ExportFailed _ => False
  | Reports.Exported rows =>
      fst (run_matching_algorithm self) <> []
      /\ Forall2
           (fun m r =>
              Reports.Match_Score r = Match.score m
              /\ Reports.Status r = Match.status m
              /\ exists c i ts,
                   In c (InternshipDatabase.candidates (db self))
                   /\ In i (InternshipDatabase.internships (db self))
                   /\ m = make_match c i ts
                   /\ Reports.Skills_Score r
                      = calculate_skills_match
                          (Candidate.skills c)
                          (Internship.required_skills i) * 100
                   /\ Reports.Location_Score r
                      = calculate_location_score
                          (Candidate.location c) (Internship.location i)
                        * 100
                   /\ Reports.Sector_Score r = sector_score c i * 100
                   /\ Reports.Diversity_Score r
                      = calculate_diversity_score c * 100
                   /\ Reports.Academic_Score r = academic_score c * 100)
           (fst (run_matching_algorithm self)) rows
  end.
Proof.
  pose proof (run_matches_origin self) as F.
  destruct (run_state self) as (Em & Ec & Ei).
  unfold Reports.export_results_to_csv,
    InternshipDatabase.get_all_candidates,
    InternshipDatabase.get_all_internships.
  rewrite Em, Ec, Ei.
  destruct (export_rows_pairs _ _ _ F) as (rows & -> & P).
  destruct (fst (run_matching_algorithm self)) as [|m ms] eqn:E;
    [reflexivity|].
  split; [discriminate|].
  eapply Forall2_impl; [|exact P].
  intros m' r (c & i & ts & c' & i' & Hc & Hi & -> & _ & _ & ->).
  simpl. split; [reflexivity|]. split; [reflexivity|].
  exists c, i, ts. auto 10.
Qed.



(** X14.  A run over a snapshot without candidates or without internships
    returns the empty list and empties the stored matches, whatever was
    stored before; display and export then report that there is nothing to
    show. *)
Theorem run_on_empty_snapshot (self : PMInternshipSystem.t) (limit : Z) :
  InternshipDatabase.candidates (db self) = []
  \/ InternshipDatabase.internships (db self) = [] ->
  fst (run_matching_algorithm self) = []
  /\ InternshipDatabase.matches (db (snd (run_matching_algorithm self))) = []
  /\ Reports.display_top_matches (snd (run_matching_algorithm self)) limit
     = Reports.NoMatches
  /\ Reports.export_results_to_csv (snd (run_matching_algorithm self))
     = Reports.NothingToExport.
Proof.
  intros H.
  assert (E : fst (run_matching_algorithm self) = []).
  { apply length_zero_iff_nil. rewrite run_unfold. cbv zeta. simpl fst.
    rewrite sort_reverse_length, kept_length.
    destruct H as [-> | ->]; simpl; lia. }
  destruct (run_state self) as (Em & _).
  unfold Reports.display_top_matches, Reports.export_results_to_csv.
  rewrite Em, E. repeat split.
  revert E. rewrite run_unfold. cbv zeta. simpl. auto.
Qed.

Lemma run_on_empty_snapshot_witness :
  fst (run_matching_algorithm
         (mk (InternshipDatabase.mk Sample.candidates [] []) []
             (fun _ => 0%Z) 0)) = []
  /\ InternshipDatabase.matches
       (db (snd (run_matching_algorithm
                   (mk (InternshipDatabase.mk Sample.candidates [] []) []
                       (fun _ => 0%Z) 0)))) = []
  /\ Reports.display_top_matches
       (snd (run_matching_algorithm
               (mk (InternshipDatabase.mk Sample.candidates [] []) []
                   (fun _ => 0%Z) 0))) 10
     = Reports.NoMatches
  /\ Reports.export_results_to_csv
       (snd (run_matching_algorithm
               (mk (InternshipDatabase.mk Sample.candidates [] []) []
                   (fun _ => 0%Z) 0)))
     = Reports.NothingToExport.
Proof.
  refine (run_on_empty_snapshot
            (mk (InternshipDatabase.mk Sample.candidates [] []) []
                (fun _ => 0%Z) 0) 10 _).
  right; reflexivity.
Defined.

(* ================================================================= *)
(** ** Analytics *)






Section Tally.

Context {A : Type} (key : A -> string) (weight : A -> Z).





End Tally.









(* ================================================================= *)
(** ** Inserting records *)

Section InsertOrReplace.

Context {R : Type} (key : R -> Z).

Lemma insert_by_rowid_In (row : R) (table : list R) (r : R) :
  In r (Tables.insert_by_rowid key row table) <-> r = row \/ In r table.
Proof.
  induction table as [|r0 table IH]; simpl; [intuition|].
  destruct (key row <? key r0)%Z; simpl; [intuition|].
  rewrite IH. intuition.
Qed.

Lemma insert_or_replace_In (row : R) (table : list R) (r : R) :
  In r (Tables.insert_or_replace key row table)
  <-> r = row \/ (In r table /\ key r <> key row).
Proof.
  unfold Tables.insert_or_replace.
  rewrite insert_by_rowid_In, filter_In, negb_true_iff, Z.eqb_neq.
  reflexivity.
Qed.




Lemma rowid_order_NoDup (table : list R) :
  Tables.rowid_order key table -> NoDup (map key table).
Proof.
  unfold Tables.rowid_order.
  induction 1 as [|r table S IH F]; simpl; constructor; [|exact IH].
  intros H. apply in_map_iff in H as (x & E & Hx).
  pose proof (proj1 (Forall_forall _ _) F x Hx). simpl in *. lia.
Qed.

Lemma fold_insert_In (rows : list R) (table : list R) (r : R) :
  NoDup (map key rows) ->
  (In r (fold_left (fun t row => Tables.insert_or_replace key row t)
                   rows table)
   <-> In r rows \/ (In r table /\ ~ In (key r) (map key rows))).
Proof.
  revert table; induction rows as [|x rows IH]; intros table ND; simpl.
  - intuition.
  - inversion ND as [|? ? Hnot ND']; subst.
    rewrite (IH _ ND'), insert_or_replace_In.
    split.
    + intros [H|[[->|[Ht Hk]] Hn]]; [tauto|tauto|].
      right. split; [exact Ht|]. intros [E|H]; [now apply Hk|now apply Hn].
    + intros [[->|H]|[Ht Hn]]; [|tauto|].
      * right. split; [now left|exact Hnot].
      * right. split; [|tauto]. right. split; [exact Ht|].
        intros E. apply Hn. now left.
Qed.

End InsertOrReplace.


Lemma sample_rowid_order :
  Tables.rowid_order Candidate.id Sample.candidates
  /\ Tables.rowid_order Internship.id Sample.internships.
Proof.
  split; repeat (constructor; [|repeat (constructor; [simpl; lia|])]);
    constructor.
Qed.


(** An id of 2^63 is not stored: the call raises [OverflowError]. *)
Lemma add_candidate_overflow (db : InternshipDatabase.t) (c : Candidate.t) :
  Candidate.id c = (2 ^ 63)%Z ->
  Tables.add_candidate db c = (Some Tables.OverflowError, db).
Proof. intros E. unfold Tables.add_candidate. now rewrite E. Qed.

Lemma for_each_add_candidate (cs : list Candidate.t)
      (db : InternshipDatabase.t) :
  Forall (fun c => Tables.int64 (Candidate.id c) = true) cs ->
  Tables.for_each Tables.add_candidate cs db
  = (None,
     InternshipDatabase.mk
       (fold_left (fun t c => Tables.insert_or_replace Candidate.id c t) cs
                  (InternshipDatabase.candidates db))
       (InternshipDatabase.internships db) (InternshipDatabase.matches db)).
Proof.
  intros F. revert db.
  induction F as [|c cs Hc F IH]; intros db; simpl; [now destruct db|].
  unfold Tables.add_candidate at 1. rewrite Hc. now rewrite IH.
Qed.

Lemma for_each_add_internship (ins : list Internship.t)
      (db : InternshipDatabase.t) :
  Forall (fun i => Tables.int64 (Internship.id i)
                   && Tables.int64 (Internship.capacity i)
                   && Tables.int64 (Internship.stipend i) = true) ins ->
  Tables.for_each Tables.add_internship ins db
  = (None,
     InternshipDatabase.mk
       (InternshipDatabase.candidates db)
       (fold_left (fun t i => Tables.insert_or_replace Internship.id i t) ins
                  (InternshipDatabase.internships db))
       (InternshipDatabase.matches db)).
Proof.
  intros F. revert db.
  induction F as [|i ins Hi F IH]; intros db; simpl; [now destruct db|].
  unfold Tables.add_internship at 1. rewrite Hi. now rewrite IH.
Qed.

Lemma sample_records_bind :
  Forall (fun c => Tables.int64 (Candidate.id c) = true) Sample.candidates
  /\ Forall (fun i => Tables.int64 (Internship.id i)
                      && Tables.int64 (Internship.capacity i)
                      && Tables.int64 (Internship.stipend i) = true)
            Sample.internships.
Proof. split; repeat constructor. Qed.

(** [load_sample_data] raises nothing. *)
Lemma load_sample_data_call_unfold (db : InternshipDatabase.t) :
  Tables.load_sample_data_call db
  = (None,
     match InternshipDatabase.candidates db with
     | [] =>
         InternshipDatabase.mk
           Sample.candidates
           (fold_left
              (fun t i => Tables.insert_or_replace Internship.id i t)
              Sample.internships (InternshipDatabase.internships db))
           (InternshipDatabase.matches db)
     | _ => db
     end).
Proof.
  destruct db as [cs ins ms]. destruct cs as [|c cs]; [|reflexivity].
  unfold Tables.load_sample_data_call.
  cbn [InternshipDatabase.candidates List.length Nat.ltb Nat.leb].
  rewrite (for_each_add_candidate _ _ (proj1 sample_records_bind)).
  rewrite (for_each_add_internship _ _ (proj2 sample_records_bind)).
  reflexivity.
Qed.

(** X22.  [load_sample_data] leaves a database with at least one candidate
    exactly as it is, so loading twice is loading once.  On an empty
    candidates table it stores the five sample candidates; the internships
    table then holds the five sample internships and every earlier
    internship whose id is not one of theirs, and the stored matches are
    kept. *)
Theorem load_sample_data_once (db : InternshipDatabase.t) :
  Tables.load_sample_data (Tables.load_sample_data db)
  = Tables.load_sample_data db
  /\ match InternshipDatabase.candidates db with
     | [] =>
         InternshipDatabase.candidates (Tables.load_sample_data db)
         = Sample.candidates
         /\ (forall i,
                In i (InternshipDatabase.internships
                        (Tables.load_sample_data db))
                <-> In i Sample.internships
                    \/ (In i (InternshipDatabase.internships db)
                        /\ ~ In (Internship.id i)
                                (map Internship.id Sample.internships)))
         /\ InternshipDatabase.matches (Tables.load_sample_data db)
            = InternshipDatabase.matches db
     | _ => Tables.load_sample_data db = db
     end.
Proof.
  destruct db as [cs ins ms]. destruct cs as [|c cs].
  - assert (E : Tables.load_sample_data (InternshipDatabase.mk [] ins ms)
                = InternshipDatabase.mk
                    Sample.candidates
                    (fold_left
                       (fun t i => Tables.insert_or_replace Internship.id i t)
                       Sample.internships ins) ms).
    { unfold Tables.load_sample_data.
      now rewrite load_sample_data_call_unfold. }
    rewrite E. cbn [InternshipDatabase.candidates
                      InternshipDatabase.internships
                      InternshipDatabase.matches].
    split; [reflexivity|]. split; [reflexivity|]. split; [|reflexivity].
    intros i. apply fold_insert_In.
    apply rowid_order_NoDup, sample_rowid_order.
  - split; reflexivity.
Qed.

(* ================================================================= *)
(** ** The stored score and the aggregate *)




Lemma round_half_even_mono (x y : Q) :
  x <= y -> (Py.round_half_even x <= Py.round_half_even y)%Z.
Proof.
  intros H.
  pose proof (Qfloor_resp_le _ _ H) as F.
  destruct (Z.eq_dec (Qfloor x) (Qfloor y)) as [E|N].
  - unfold Py.round_half_even. rewrite E.
    set (f := Qfloor y).
    destruct (Qcompare (x - inject_Z f) (1 # 2)) eqn:Cx;
      destruct (Qcompare (y - inject_Z f) (1 # 2)) eqn:Cy;
      try (destruct (Z.even f)); try lia; exfalso;
      repeat match goal with
             | C : Qcompare _ _ = Eq |- _ => apply Qeq_alt in C
             | C : Qcompare _ _ = Lt |- _ => apply Qlt_alt in C
             | C : Qcompare _ _ = Gt |- _ => apply Qgt_alt in C
             end; lra.
  - pose proof (round_half_even_bounds x) as [_ Bx].
    pose proof (round_half_even_bounds y) as [By _]. lia.
Qed.

Lemma round1_mono (x y : Q) : x <= y -> Py.round x 1 <= Py.round y 1.
Proof.
  intros H. unfold Py.round. change (inject_Z (10 ^ Z.of_nat 1)) with 10.
  assert (M : (Py.round_half_even (x * 10) <= Py.round_half_even (y * 10))%Z)
    by (apply round_half_even_mono; lra).
  rewrite Zle_Qle in M. unfold Qdiv.
  apply Qmult_le_compat_r; [exact M|easy].
Qed.

(** X24.  Rounding never inverts the order of two pairs: when the aggregate
    of one pair is at most the aggregate of another, so is its stored
    score. *)
Theorem stored_score_monotone (c c' : Candidate.t) (i i' : Internship.t)
        (ts ts' : Z) :
  fst (calculate_match_score c i) <= fst (calculate_match_score c' i') ->
  Match.score (make_match c i ts) <= Match.score (make_match c' i' ts').
Proof.
  intros H.
  destruct (make_match_fields c i ts) as (-> & _).
  destruct (make_match_fields c' i' ts') as (-> & _).
  now apply round1_mono.
Qed.

Lemma stored_score_monotone_witness :
  Match.score (make_match Cases.negative_cgpa Cases.borderline_internship 0)
  <= Match.score (make_match Cases.borderline_candidate
                             Cases.borderline_internship 1).
Proof.
  refine (stored_score_monotone Cases.negative_cgpa Cases.borderline_candidate
            Cases.borderline_internship Cases.borderline_internship 0 1 _).
  vm_compute; discriminate.
Defined.

(* ================================================================= *)
(** ** No pair twice *)

Lemma scored_internship_ids (now : nat -> Z) (c : Candidate.t)
      (ins : list Internship.t) (k : nat) :
  map Match.internship_id (Trace.scored now c ins k) = map Internship.id ins.
Proof.
  revert k; induction ins as [|i ins IH]; intros k; simpl; [reflexivity|].
  rewrite IH. f_equal; apply make_match_fields.
Qed.

Lemma NoDup_firstn {A : Type} (n : nat) (l : list A) :
  NoDup l -> NoDup (firstn n l).
Proof.
  intros H. rewrite <- (firstn_skipn n l) in H.
  now apply NoDup_app_remove_r in H.
Qed.

Lemma top3_internship_ids (now : nat -> Z) (c : Candidate.t)
      (ins : list Internship.t) (k : nat) :
  NoDup (map Internship.id ins) ->
  NoDup (map Match.internship_id (Trace.top3 (Trace.scored now c ins k))).
Proof.
  intros ND. unfold Trace.top3. rewrite <- firstn_map. apply NoDup_firstn.
  apply (Permutation_NoDup
           (Permutation_map Match.internship_id
              (sort_reverse_perm Match.score (Trace.scored now c ins k)))).
  now rewrite scored_internship_ids.
Qed.

Lemma NoDup_pair_ids (ms : list Match.t) :
  NoDup (map Match.internship_id ms) ->
  NoDup (map (fun m => (Match.candidate_id m, Match.internship_id m)) ms).
Proof.
  induction ms as [|m ms IH]; simpl; intros ND; [constructor|].
  inversion ND as [|? ? Hnot ND']; subst.
  constructor; [|now apply IH].
  intros H. apply in_map_iff in H as (m' & [= _ E] & Hm').
  apply Hnot. rewrite <- E. now apply in_map.
Qed.

Lemma kept_candidate_ids (now : nat -> Z) (ins : list Internship.t)
      (cs : list Candidate.t) (k : nat) (m : Match.t) :
  In m (List.concat (map Trace.top3 (Trace.per_candidate now ins cs k))) ->
  In (Match.candidate_id m) (map Candidate.id cs).
Proof.
  revert k; induction cs as [|c cs IH]; intros k; simpl; [easy|].
  intros H. apply in_app_or in H as [H|H].
  - left. symmetry.
    exact (proj1 (Forall_forall _ _) (top3_candidate_id now c ins k) m H).
  - right. exact (IH _ H).
Qed.

Lemma kept_pairs_NoDup (now : nat -> Z) (ins : list Internship.t)
      (cs : list Candidate.t) (k : nat) :
  NoDup (map Candidate.id cs) -> NoDup (map Internship.id ins) ->
  NoDup (map (fun m => (Match.candidate_id m, Match.internship_id m))
             (List.concat (map Trace.top3
                               (Trace.per_candidate now ins cs k)))).
Proof.
  intros NDc NDi; revert k; induction cs as [|c cs IH]; intros k; simpl;
    [constructor|].
  inversion NDc as [|? ? Hnot NDc']; subst.
  rewrite map_app. apply NoDup_app.
  - apply NoDup_pair_ids. now apply top3_internship_ids.
  - now apply IH.
  - intros p Hp Hq.
    apply in_map_iff in Hp as (m & <- & Hm).
    apply in_map_iff in Hq as (m' & [= Ec _] & Hm').
    apply kept_candidate_ids in Hm'.
    rewrite Ec in Hm'.
    rewrite (proj1 (Forall_forall _ _) (top3_candidate_id now c ins k) m Hm)
      in Hm'.
    now apply Hnot.
Qed.

(** X25.  When candidate ids and internship ids are pairwise distinct, no
    candidate/internship pair occurs twice in the ranked list of a run. *)
Theorem no_pair_listed_twice (self : PMInternshipSystem.t) :
  NoDup (map Candidate.id (InternshipDatabase.candidates (db self))) ->
  NoDup (map Internship.id (InternshipDatabase.internships (db self))) ->
  NoDup (map (fun m => (Match.candidate_id m, Match.internship_id m))
             (fst (run_matching_algorithm self))).
Proof.
  intros NDc NDi. rewrite run_unfold. cbv zeta. simpl fst.
  eapply Permutation_NoDup.
  - apply Permutation_map, sort_reverse_perm.
  - now apply kept_pairs_NoDup.
Qed.

Lemma no_pair_listed_twice_witness :
  NoDup (map (fun m => (Match.candidate_id m, Match.internship_id m))
             (fst (run_matching_algorithm Sample.system))).
Proof.
  refine (no_pair_listed_twice Sample.system _ _).
  - exact (rowid_order_NoDup _ _ (proj1 sample_rowid_order)).
  - exact (rowid_order_NoDup _ _ (proj2 sample_rowid_order)).
Defined.
